(** * Library_project: borrow / return workflow and catalog permissions

    A shallow embedding of [library/models.py], [library/views.py] and
    [library/tasks.py].  The two database tables that the views touch are
    finite maps from primary key to row; every view is a function from the
    database to a response and a new database, written in a small
    exception-and-state monad that mirrors the [try] / [except] blocks of the
    Python code. *)

From stdpp Require Import gmap strings list fin_maps pretty.

Local Open Scope Z_scope.

(** ** Data model ([library/models.py]) *)

(** [class User(AbstractUser)]: only the attributes read by the views.
    [role] is a [CharField]; the views compare it with string literals. *)
Record User := mkUser {
  user_id : Z;
  username : string;
  role : string
}.

(** [class Book(models.Model)].  [available_copies] is read back as a Python
    integer, hence [Z]. *)
Record Book := mkBook {
  title : string;
  author : string;
  isbn : string;
  published_date : option Z;
  pages : Z;
  available_copies : Z
}.

(** [class BorrowedBook(models.Model)].  The two foreign keys hold the primary
    keys of the referenced rows; timestamps are microseconds since the epoch
    (the resolution of [datetime]). *)
Record BorrowedBook := mkBorrowedBook {
  user : Z;
  book : Z;
  borrowed_at : Z;
  due_date : Z;
  returned : bool
}.

(** The database: one finite map per table, keyed by primary key. *)
Record DB := mkDB {
  books : gmap Z Book;
  loans : gmap Z BorrowedBook
}.

(** [timedelta(days=15)] in microseconds. *)
Definition timedelta_days (d : Z) : Z := d * 86400 * 1000000.

(** [def get_due_date(): return now() + timedelta(days=15)]; the reading of
    the clock is the argument. *)
Definition get_due_date (now : Z) : Z := now + timedelta_days 15.

(** ** Responses *)

Inductive Body :=
  | Json (key value : string)
  | BookJson (pk : option Z) (b : Book)
  | FieldErrors (fields : list string)
  | Empty.

Record Response := mkResponse {
  data : Body;
  status : Z
}.

Definition HTTP_200_OK : Z := 200.
Definition HTTP_201_CREATED : Z := 201.
Definition HTTP_204_NO_CONTENT : Z := 204.
Definition HTTP_400_BAD_REQUEST : Z := 400.
Definition HTTP_403_FORBIDDEN : Z := 403.
Definition HTTP_404_NOT_FOUND : Z := 404.
Definition HTTP_500_INTERNAL_SERVER_ERROR : Z := 500.

(** ** Exceptions and the monad of the views *)

Inductive Exception :=
  | Book_DoesNotExist
  | BorrowedBook_DoesNotExist
  | MultipleObjectsReturned
  | Http404
  | DataError
  | ValidationError (fields : list string).

Inductive Result (A : Type) :=
  | Ok (a : A)
  | Raise (e : Exception).
Arguments Ok {A} a.
Arguments Raise {A} e.

(** A computation reads and writes the database and either returns or raises.
    Writes made before an exception stay: the views open no transaction. *)
Definition ORM (A : Type) : Type := DB → Result A * DB.

Global Instance ORM_ret : MRet ORM := λ A a db, (Ok a, db).
Global Instance ORM_bind : MBind ORM := λ A B k m db,
  match m db with
  | (Ok a, db') => k a db'
  | (Raise e, db') => (Raise e, db')
  end.

(** [try: body except ...: handler] where both branches end in [return]. *)
Definition try_except {A} (body : ORM A) (handler : Exception → A) : DB → A * DB :=
  λ db, match body db with
        | (Ok a, db') => (a, db')
        | (Raise e, db') => (handler e, db')
        end.

(** ** The ORM calls used by the views *)

(** An [AutoField] primary key: the database hands out a key not in use. *)
Definition fresh_pk {V} (table : gmap Z V) : Z := fresh (dom table).

(** [Book.objects.get(id=book_id)]: a model instance is its key and its row. *)
Definition Book_objects_get (book_id : Z) : ORM (Z * Book) :=
  λ db, match books db !! book_id with
        | Some b => (Ok (book_id, b), db)
        | None => (Raise Book_DoesNotExist, db)
        end.

(** [book.save()]. *)
Definition Book_save (inst : Z * Book) : ORM unit :=
  λ db, (Ok tt, mkDB (<[inst.1 := inst.2]> (books db)) (loans db)).

(** The largest value that a [PositiveIntegerField] column holds.  The
    database backend sets it, and the backend is named in the project
    settings, which are not among the sources; this is the bound of SQLite,
    the backend of a Django project that names no other: a signed 64-bit
    integer. *)
Definition PositiveIntegerField_max : Z := 9223372036854775807.

(** [book.save()] of a count that was raised.  The database refuses a count
    above the range of the column and the save raises.  A count that was
    lowered by one from a positive stored count is within the range as the
    stored one was, so the save after a borrow is [Book_save]. *)
Definition Book_save_raised (inst : Z * Book) : ORM unit :=
  λ db, if bool_decide (available_copies inst.2 ≤ PositiveIntegerField_max)
        then Book_save inst db
        else (Raise DataError, db).

(** The rows selected by [book_id=..., user=..., returned=False]. *)
Definition active_for (book_id uid : Z) (row : Z * BorrowedBook) : Prop :=
  book row.2 = book_id ∧ user row.2 = uid ∧ returned row.2 = false.

Global Instance active_for_dec book_id uid row : Decision (active_for book_id uid row) :=
  decide (book row.2 = book_id ∧ user row.2 = uid ∧ returned row.2 = false).

(** [BorrowedBook.objects.get(book_id=book_id, user=request.user,
    returned=False)]: [QuerySet.get] returns the row when exactly one matches,
    raises [DoesNotExist] when none does and [MultipleObjectsReturned]
    otherwise. *)
Definition BorrowedBook_objects_get (book_id uid : Z) : ORM (Z * BorrowedBook) :=
  λ db, match map_to_list (filter (active_for book_id uid) (loans db)) with
        | [] => (Raise BorrowedBook_DoesNotExist, db)
        | [row] => (Ok row, db)
        | _ :: _ :: _ => (Raise MultipleObjectsReturned, db)
        end.

(** [BorrowedBook.objects.create(user=request.user, book=book)].  The model
    is instantiated first, which evaluates the field default [get_due_date]
    (clock reading [t_init]); [returned] takes its default [False]; the row is
    then saved, and [auto_now_add] fills [borrowed_at] with the clock reading
    at that moment ([t_save]). *)
Definition BorrowedBook_objects_create (t_init t_save : Z) (uid book_id : Z)
  : ORM (Z * BorrowedBook) :=
  λ db,
    let row := mkBorrowedBook uid book_id t_save (get_due_date t_init) false in
    let pk := fresh_pk (loans db) in
    (Ok (pk, row), mkDB (books db) (<[pk := row]> (loans db))).

(** [borrowed_book.save()]. *)
Definition BorrowedBook_save (inst : Z * BorrowedBook) : ORM unit :=
  λ db, (Ok tt, mkDB (books db) (<[inst.1 := inst.2]> (loans db))).

(** Attribute assignments on model instances. *)
Definition set_available_copies (n : Z) (b : Book) : Book :=
  mkBook (title b) (author b) (isbn b) (published_date b) (pages b) n.

Definition set_returned (r : bool) (l : BorrowedBook) : BorrowedBook :=
  mkBorrowedBook (user l) (book l) (borrowed_at l) (due_date l) r.

(** ** Borrow and return ([library/views.py]) *)

(** [BorrowBookView.post]. *)
Definition BorrowBookView_post (t_init t_save : Z) (request_user : User) (book_id : Z)
  : DB → Response * DB :=
  try_except
    (bk ← Book_objects_get book_id;
     if bool_decide (available_copies bk.2 ≤ 0) then
       mret (mkResponse (Json "error" "No copies available") HTTP_400_BAD_REQUEST)
     else
       BorrowedBook_objects_create t_init t_save (user_id request_user) bk.1;;
       Book_save (bk.1, set_available_copies (available_copies bk.2 - 1) bk.2);;
       mret (mkResponse (Json "message" "Book borrowed successfully") HTTP_201_CREATED))
    (λ e, match e with
          | Book_DoesNotExist =>
              mkResponse (Json "error" "Book not found") HTTP_404_NOT_FOUND
          | _ =>
              mkResponse (Json "error" "Borrowing failed!") HTTP_500_INTERNAL_SERVER_ERROR
          end).

(** [ReturnBookView.post].  [borrowed_book.book] follows the foreign key with
    a lookup in the book table.  The loan is saved before the book, so a
    failure of the second save leaves the loan marked as returned. *)
Definition ReturnBookView_post (request_user : User) (book_id : Z)
  : DB → Response * DB :=
  try_except
    (borrowed_book ← BorrowedBook_objects_get book_id (user_id request_user);
     BorrowedBook_save (borrowed_book.1, set_returned true borrowed_book.2);;
     bk ← Book_objects_get (book borrowed_book.2);
     Book_save_raised (bk.1, set_available_copies (available_copies bk.2 + 1) bk.2);;
     mret (mkResponse (Json "message" "Book returned successfully") HTTP_200_OK))
    (λ e, match e with
          | BorrowedBook_DoesNotExist =>
              mkResponse (Json "error" "Borrowed book not found") HTTP_404_NOT_FOUND
          | _ =>
              mkResponse (Json "error" "Return failed!") HTTP_500_INTERNAL_SERVER_ERROR
          end).

(** ** The overdue scan ([library/tasks.py]) *)

(** [returned=False, due_date__lt=now]. *)
Definition overdue (now : Z) (row : Z * BorrowedBook) : Prop :=
  returned row.2 = false ∧ due_date row.2 < now.

Global Instance overdue_dec now row : Decision (overdue now row) :=
  decide (returned row.2 = false ∧ due_date row.2 < now).

(** [BorrowedBook.objects.filter(returned=False, due_date__lt=...)],
    evaluated. *)
Definition due_books (now : Z) (db : DB) : list (Z * BorrowedBook) :=
  map_to_list (filter (overdue now) (loans db)).

(** The [for] loop of [check_due_books]: one printed line per selected row,
    the title being read through the foreign key [book.book]. *)
Fixpoint print_overdue (rows : list (Z * BorrowedBook)) : ORM (list string) :=
  match rows with
  | [] => mret []
  | row :: rest =>
      bk ← Book_objects_get (book row.2);
      out ← print_overdue rest;
      mret (("Book '" +:+ title bk.2 +:+ "' is overdue!") :: out)
  end.

(** [check_due_books()], the reading of [datetime.now()] being the argument:
    the printed lines and the returned message. *)
Definition check_due_books (now : Z) : ORM (list string * string) :=
  λ db,
    let rows := due_books now db in
    (out ← print_overdue rows;
     mret (out, pretty (length rows) +:+ " overdue books found.")) db.

(** ** Catalog management ([library/views.py]) *)

(** A [BookSerializer]: the instance it is bound to, if any, and the data
    of the request as its fields parse them. *)
Record Serializer := mkSerializer {
  instance : option (Z * Book);
  validated_data : Book
}.

(** What the fields of [BookSerializer] (built from the declarations of
    [Book], [fields = '__all__']) accept.  A [CharField] is required, not
    blank, within its [max_length] and free of null characters; a
    [PositiveIntegerField] is within the range of its column. *)
Definition char_field_ok (max_length : nat) (s : string) : Prop :=
  s ≠ "" ∧ (String.length s ≤ max_length)%nat ∧
  Ascii.zero ∉ String.list_ascii_of_string s.

Definition positive_integer_ok (n : Z) : Prop :=
  0 ≤ n ≤ PositiveIntegerField_max.

(** [unique=True] on [isbn]: no other book has it.  On an update the bound
    instance itself is left out of the comparison. *)
Definition isbn_is_unique (exclude : option Z) (data : Book) (db : DB) : Prop :=
  map_Forall (λ pk bk, exclude = Some pk ∨ isbn bk ≠ isbn data) (books db).

(** The fields whose validation fails, in the order of the serializer. *)
Definition field_errors (exclude : option Z) (data : Book) (db : DB) : list string :=
  (if decide (char_field_ok 255 (title data)) then [] else ["title"]) ++
  (if decide (char_field_ok 255 (author data)) then [] else ["author"]) ++
  (if decide (char_field_ok 13 (isbn data) ∧ isbn_is_unique exclude data db)
   then [] else ["isbn"]) ++
  (if decide (positive_integer_ok (pages data)) then [] else ["pages"]) ++
  (if decide (positive_integer_ok (available_copies data)) then []
   else ["available_copies"]).

(** [serializer.is_valid(raise_exception=True)]. *)
Definition is_valid (serializer : Serializer) : ORM Serializer :=
  λ db, match field_errors (fst <$> instance serializer)
                           (validated_data serializer) db with
        | [] => (Ok serializer, db)
        | fields => (Raise (ValidationError fields), db)
        end.

(** [serializer.save()]: without instance a new row is inserted, with an
    instance its row is overwritten; either way the serializer ends up bound
    to the saved instance. *)
Definition serializer_save (serializer : Serializer) : ORM Serializer :=
  λ db,
    let pk := match instance serializer with
              | Some obj => obj.1
              | None => fresh_pk (books db)
              end in
    (Ok (mkSerializer (Some (pk, validated_data serializer)) (validated_data serializer)),
     mkDB (<[pk := validated_data serializer]> (books db)) (loans db)).

(** [serializer.data]: the instance when there is one, the validated data
    otherwise. *)
Definition serializer_data (serializer : Serializer) : Body :=
  match instance serializer with
  | Some obj => BookJson (Some obj.1) obj.2
  | None => BookJson None (validated_data serializer)
  end.

(** [instance.delete()]; [on_delete=models.CASCADE] removes the loans that
    reference the book. *)
Definition Book_delete (obj : Z * Book) : ORM unit :=
  λ db, (Ok tt, mkDB (delete obj.1 (books db))
                     (filter (λ row, book row.2 ≠ obj.1) (loans db))).

Definition permission_denied : Response :=
  mkResponse (Json "error" "Permission Denied") HTTP_403_FORBIDDEN.

(** [BookCreateView.perform_create].  The result pairs what the method
    returns ([Some r] for [return r], [None] for reaching the end of the
    body) with the serializer object as the method leaves it. *)
Definition BookCreateView_perform_create (request_user : User) (serializer : Serializer)
  : DB → (option Response * Serializer) * DB :=
  try_except
    (if bool_decide (role request_user ∉ ["admin"; "librarian"]) then
       mret (Some permission_denied, serializer)
     else
       saved ← serializer_save serializer;
       mret (None, saved))
    (λ _, (Some (mkResponse (Json "error" "Book creation failed!")
                            HTTP_500_INTERNAL_SERVER_ERROR), serializer)).

(** [BookUpdateDeleteView.perform_update]. *)
Definition BookUpdateDeleteView_perform_update (request_user : User)
    (serializer : Serializer) : DB → (option Response * Serializer) * DB :=
  try_except
    (if bool_decide (role request_user ∉ ["admin"; "librarian"]) then
       mret (Some permission_denied, serializer)
     else
       saved ← serializer_save serializer;
       mret (None, saved))
    (λ _, (Some (mkResponse (Json "error" "Book update failed!")
                            HTTP_500_INTERNAL_SERVER_ERROR), serializer)).

(** [BookUpdateDeleteView.perform_destroy]. *)
Definition BookUpdateDeleteView_perform_destroy (request_user : User)
    (obj : Z * Book) : DB → option Response * DB :=
  try_except
    (if bool_decide (role request_user ∉ ["admin"; "librarian"]) then
       mret (Some permission_denied)
     else
       Book_delete obj;;
       mret None)
    (λ _, Some (mkResponse (Json "error" "Book deletion failed!")
                           HTTP_500_INTERNAL_SERVER_ERROR)).

(** A method that handles its own exceptions, called from a computation. *)
Definition call {A} (method : DB → A * DB) : ORM A :=
  λ db, let '(a, db') := method db in (Ok a, db').

(** [self.get_object()] raises [Http404] when [pk] names no book. *)
Definition get_object (pk : Z) : ORM (Z * Book) :=
  λ db, match books db !! pk with
        | Some b => (Ok (pk, b), db)
        | None => (Raise Http404, db)
        end.

(** The framework's answer to [Http404]. *)
Definition not_found : Response :=
  mkResponse (Json "detail" "Not found.") HTTP_404_NOT_FOUND.

(** What the framework answers when a handler raises: 400 with the failing
    fields for a validation error, 404 for [Http404], 500 otherwise. *)
Definition handle_exception (e : Exception) : Response :=
  match e with
  | ValidationError fields => mkResponse (FieldErrors fields) HTTP_400_BAD_REQUEST
  | Http404 => not_found
  | _ => mkResponse Empty HTTP_500_INTERNAL_SERVER_ERROR
  end.

(** The request handlers that the three views inherit from
    [rest_framework.mixins] ([CreateModelMixin.create],
    [UpdateModelMixin.update], [DestroyModelMixin.destroy]).  Create and
    update validate the data first; each then calls the [perform_*] hook as
    a statement, so whatever the hook returns is dropped, and answers with
    its own success response. *)
Definition BookCreateView_create (request_user : User) (request_data : Book)
  : DB → Response * DB :=
  try_except
    (serializer ← is_valid (mkSerializer None request_data);
     hook ← call (BookCreateView_perform_create request_user serializer);
     mret (mkResponse (serializer_data hook.2) HTTP_201_CREATED))
    handle_exception.

Definition BookUpdateDeleteView_update (request_user : User) (pk : Z)
    (request_data : Book) : DB → Response * DB :=
  try_except
    (obj ← get_object pk;
     serializer ← is_valid (mkSerializer (Some obj) request_data);
     hook ← call (BookUpdateDeleteView_perform_update request_user serializer);
     mret (mkResponse (serializer_data hook.2) HTTP_200_OK))
    handle_exception.

Definition BookUpdateDeleteView_destroy (request_user : User) (pk : Z)
  : DB → Response * DB :=
  try_except
    (obj ← get_object pk;
     call (BookUpdateDeleteView_perform_destroy request_user obj);;
     mret (mkResponse Empty HTTP_204_NO_CONTENT))
    handle_exception.

(** ** Sequences of loan operations *)

Inductive Op :=
  | Borrow (t_init t_save : Z) (request_user : User) (book_id : Z)
  | Return (request_user : User) (book_id : Z)
  | ScanOverdue (now : Z).

Definition step (db : DB) (op : Op) : DB :=
  match op with
  | Borrow t_init t_save u b => (BorrowBookView_post t_init t_save u b db).2
  | Return u b => (ReturnBookView_post u b db).2
  | ScanOverdue now => (check_due_books now db).2
  end.

Definition run (ops : list Op) (db : DB) : DB := foldl step db ops.

(** ** Quantities the properties speak about *)

(** The loans on a book that are out: [book = book_id] and
    [returned = False]. *)
Definition on_loan (book_id : Z) (row : Z * BorrowedBook) : Prop :=
  book row.2 = book_id ∧ returned row.2 = false.

Global Instance on_loan_dec book_id row : Decision (on_loan book_id row) :=
  decide (book row.2 = book_id ∧ returned row.2 = false).

Definition active_loans (book_id : Z) (db : DB) : nat :=
  size (filter (on_loan book_id) (loans db)).

(** Every book's count is its total minus the loans that are out. *)
Definition conserved (total_copies : Z → Z) (db : DB) : Prop :=
  ∀ b bk, books db !! b = Some bk →
    available_copies bk = total_copies b - Z.of_nat (active_loans b db).

Definition nonneg (db : DB) : Prop :=
  ∀ b bk, books db !! b = Some bk → 0 ≤ available_copies bk.

(** A loan that is in [db'] under a key that [db] did not use. *)
Definition created (db db' : DB) (k : Z) (l : BorrowedBook) : Prop :=
  loans db !! k = None ∧ loans db' !! k = Some l.

(** ** Book details ([library/views.py]) *)

(** [BookDetailView.retrieve].  The log line evaluates [self.get_object()]
    inside the [try] block and [super().retrieve] evaluates it again before
    it renders the instance; [Http404] is an [Exception], so the [except]
    clause of the view takes it. *)
Definition BookDetailView_retrieve (pk : Z) : DB → Response * DB :=
  try_except
    (get_object pk;;
     obj ← get_object pk;
     mret (mkResponse (BookJson (Some obj.1) obj.2) HTTP_200_OK))
    (λ _, mkResponse (Json "error" "Failed to retrieve book details!")
                     HTTP_500_INTERNAL_SERVER_ERROR).

(** ** Sequences of requests to the views *)

Inductive Request :=
  | Loan (op : Op)
  | CreateBook (request_user : User) (request_data : Book)
  | UpdateBook (request_user : User) (pk : Z) (request_data : Book)
  | DestroyBook (request_user : User) (pk : Z)
  | RetrieveBook (pk : Z).

Definition handle (db : DB) (req : Request) : DB :=
  match req with
  | Loan op => step db op
  | CreateBook u request_data => (BookCreateView_create u request_data db).2
  | UpdateBook u pk request_data => (BookUpdateDeleteView_update u pk request_data db).2
  | DestroyBook u pk => (BookUpdateDeleteView_destroy u pk db).2
  | RetrieveBook pk => (BookDetailView_retrieve pk db).2
  end.

Definition serve (reqs : list Request) (db : DB) : DB := foldl handle db reqs.

(** Borrow requests for one book, one per (clock readings, user). *)
Definition borrow_each (book_id : Z) (reqs : list (Z * Z * User)) : list Op :=
  (λ r, Borrow r.1.1 r.1.2 r.2 book_id) <$> reqs.

(** Referential integrity of [BorrowedBook.book]: every loan points at a
    row of the book table. *)
Definition fk_ok (db : DB) : Prop :=
  ∀ k l, loans db !! k = Some l → is_Some (books db !! book l).

(** Every count is one that the column holds. *)
Definition within_range (db : DB) : Prop :=
  ∀ b bk, books db !! b = Some bk → positive_integer_ok (available_copies bk).

(** The line that [check_due_books] prints for a book. *)
Definition overdue_line (bk : Book) : string :=
  "Book '" +:+ title bk +:+ "' is overdue!".

(** A request that a user who is neither admin nor librarian may send to
    the catalog views, or a read of a book's details. *)
Definition from_member (req : Request) : Prop :=
  match req with
  | Loan _ => False
  | CreateBook u _ | UpdateBook u _ _ | DestroyBook u _ =>
      role u ∉ ["admin"; "librarian"]
  | RetrieveBook _ => True
  end.

(** ** Sample data *)

Definition alice : User := mkUser 7 "alice" "member".
Definition bob : User := mkUser 8 "bob" "librarian".

Definition sicp (copies : Z) : Book :=
  mkBook "SICP" "Abelson" "9780262510871" None 657 copies.

Definition htdp (copies : Z) : Book :=
  mkBook "HtDP" "Felleisen" "9780262062183" None 720 copies.

(** One book with a single copy on the shelf and no loans. *)
Definition db0 : DB := mkDB {[ 1 := sicp 1 ]} ∅.

(** Two copies on the shelf while alice already holds a third one: the
    database after alice borrowed book 1 from a catalog that had three
    copies of it (see [db_held_reached]). *)
Definition db_held : DB :=
  mkDB {[ 1 := sicp 2 ]}
       {[ 0 := mkBorrowedBook 7 1 1690000000000000 1691296000000000 false ]}.

(** ** How the two loan views unfold *)

Definition borrowed_row (t_init t_save : Z) (u : User) (b : Z) : BorrowedBook :=
  mkBorrowedBook (user_id u) b t_save (get_due_date t_init) false.

Lemma BorrowBookView_post_eq t_init t_save u b db :
  BorrowBookView_post t_init t_save u b db =
  match books db !! b with
  | None => (mkResponse (Json "error" "Book not found") HTTP_404_NOT_FOUND, db)
  | Some bk =>
      if bool_decide (available_copies bk ≤ 0) then
        (mkResponse (Json "error" "No copies available") HTTP_400_BAD_REQUEST, db)
      else
        (mkResponse (Json "message" "Book borrowed successfully") HTTP_201_CREATED,
         mkDB (<[b := set_available_copies (available_copies bk - 1) bk]> (books db))
              (<[fresh_pk (loans db) := borrowed_row t_init t_save u b]> (loans db)))
  end.
Proof.
  unfold BorrowBookView_post, try_except, mbind, ORM_bind, Book_objects_get.
  destruct (books db !! b) as [bk|]; [|done].
  cbn. case_bool_decide; done.
Qed.

Lemma ReturnBookView_post_eq u b db :
  ReturnBookView_post u b db =
  match map_to_list (filter (active_for b (user_id u)) (loans db)) with
  | [] => (mkResponse (Json "error" "Borrowed book not found") HTTP_404_NOT_FOUND, db)
  | [row] =>
      let loans' := <[row.1 := set_returned true row.2]> (loans db) in
      match books db !! book row.2 with
      | Some bk =>
          if bool_decide (available_copies bk + 1 ≤ PositiveIntegerField_max) then
            (mkResponse (Json "message" "Book returned successfully") HTTP_200_OK,
             mkDB (<[book row.2 := set_available_copies (available_copies bk + 1) bk]>
                     (books db)) loans')
          else
            (mkResponse (Json "error" "Return failed!") HTTP_500_INTERNAL_SERVER_ERROR,
             mkDB (books db) loans')
      | None =>
          (mkResponse (Json "error" "Return failed!") HTTP_500_INTERNAL_SERVER_ERROR,
           mkDB (books db) loans')
      end
  | _ :: _ :: _ =>
      (mkResponse (Json "error" "Return failed!") HTTP_500_INTERNAL_SERVER_ERROR, db)
  end.
Proof.
  unfold ReturnBookView_post, try_except, mbind, ORM_bind, BorrowedBook_objects_get.
  destruct (map_to_list _) as [|row [|row' rows]]; [done| |done].
  cbn. unfold Book_objects_get. cbn.
  destruct (books db !! book row.2) as [bk|]; [|done].
  unfold Book_save_raised. cbn. by case_bool_decide.
Qed.

(** The key handed out for a new row is not in use. *)
Lemma fresh_pk_unused {V} (table : gmap Z V) : table !! fresh_pk table = None.
Proof. apply not_elem_of_dom, is_fresh. Qed.

(** What a singleton selection says about the table. *)
Lemma selected_row (P : Z * BorrowedBook → Prop) `{!∀ row, Decision (P row)}
    (table : gmap Z BorrowedBook) row rows :
  map_to_list (filter P table) = row :: rows →
  table !! row.1 = Some row.2 ∧ P row.
Proof.
  intros Hsel.
  assert (Hin : row ∈ map_to_list (filter P table)) by (rewrite Hsel; left).
  destruct row as [k l]. apply elem_of_map_to_list in Hin.
  by apply map_lookup_filter_Some in Hin.
Qed.

(** ** Counting the rows of a selection *)

Section selection_size.
Context (P : Z * BorrowedBook → Prop) `{!∀ row, Decision (P row)}.
Implicit Types table : gmap Z BorrowedBook.

Lemma size_filter_insert_new table k l :
  table !! k = None → P (k, l) →
  size (filter P (<[k := l]> table)) = S (size (filter P table)).
Proof.
  intros Hk HP. rewrite map_filter_insert_True by done.
  apply map_size_insert_None, map_lookup_filter_None. by left.
Qed.

Lemma filter_insert_skip table k l l' :
  table !! k = Some l → ¬ P (k, l) → ¬ P (k, l') →
  filter P (<[k := l']> table) = filter P table.
Proof.
  intros Hk HP HP'. apply map_filter_insert_not'; [done|].
  intros y Hy. by simplify_eq.
Qed.

Lemma size_filter_insert_drop table k l l' :
  table !! k = Some l → P (k, l) → ¬ P (k, l') →
  S (size (filter P (<[k := l']> table))) = size (filter P table).
Proof.
  intros Hk HP HP'.
  rewrite map_filter_insert_False, map_filter_delete by done.
  assert (Hin : filter P table !! k = Some l) by (by apply map_lookup_filter_Some).
  rewrite <-(insert_delete_id (filter P table) k l) at 2 by done.
  symmetry. apply map_size_insert_None, lookup_delete_eq.
Qed.
End selection_size.

(** ** What a successful borrow or return did *)

Lemma borrow_created t_init t_save u b db :
  status (BorrowBookView_post t_init t_save u b db).1 = HTTP_201_CREATED →
  ∃ bk, books db !! b = Some bk ∧ 0 < available_copies bk ∧
    (BorrowBookView_post t_init t_save u b db).2 =
      mkDB (<[b := set_available_copies (available_copies bk - 1) bk]> (books db))
           (<[fresh_pk (loans db) := borrowed_row t_init t_save u b]> (loans db)).
Proof.
  rewrite BorrowBookView_post_eq.
  destruct (books db !! b) as [bk|]; [|done].
  case_bool_decide; [done|]. intros _. exists bk. split_and!; [done|lia|done].
Qed.

Lemma return_ok u b db :
  status (ReturnBookView_post u b db).1 = HTTP_200_OK →
  ∃ k l bk,
    map_to_list (filter (active_for b (user_id u)) (loans db)) = [(k, l)] ∧
    loans db !! k = Some l ∧ active_for b (user_id u) (k, l) ∧
    books db !! b = Some bk ∧
    (ReturnBookView_post u b db).2 =
      mkDB (<[b := set_available_copies (available_copies bk + 1) bk]> (books db))
           (<[k := set_returned true l]> (loans db)).
Proof.
  rewrite ReturnBookView_post_eq.
  destruct (map_to_list _) as [|[k l] [|row' rows]] eqn:Hsel; [done| |done].
  destruct (selected_row _ _ _ _ Hsel) as [Hk Hact]. cbn in Hk.
  assert (Hb : book l = b) by apply Hact. cbn. rewrite Hb.
  destruct (books db !! b) as [bk|]; [|done].
  case_bool_decide; [|done].
  intros _. by exists k, l, bk.
Qed.

(** The number of loans that are out, after the writes of the two views. *)
Lemma active_loans_new_row bs bs' ls k l b :
  ls !! k = None → returned l = false →
  active_loans b (mkDB bs' (<[k := l]> ls)) =
  if decide (book l = b) then S (active_loans b (mkDB bs ls))
  else active_loans b (mkDB bs ls).
Proof.
  intros Hk Hret. unfold active_loans. cbn. case_decide as Hb.
  - by apply size_filter_insert_new.
  - f_equal. apply map_filter_insert_not'.
    + intros [? _]. done.
    + intros y Hy. congruence.
Qed.

Lemma active_loans_row_returned bs bs' ls k l b :
  ls !! k = Some l → returned l = false →
  active_loans b (mkDB bs ls) =
  if decide (book l = b) then S (active_loans b (mkDB bs' (<[k := set_returned true l]> ls)))
  else active_loans b (mkDB bs' (<[k := set_returned true l]> ls)).
Proof.
  intros Hk Hret. unfold active_loans. cbn. case_decide as Hb.
  - symmetry. apply (size_filter_insert_drop _ _ _ l); [done|done|].
    intros [_ ?]. done.
  - f_equal. symmetry. apply (filter_insert_skip _ _ _ l); [done| |].
    + intros [? _]. done.
    + intros [? _]. done.
Qed.

(** ** Inventory conservation *)

(** C1. Take any assignment of total copies for which every book's
    [available_copies] is its total minus its loans that are out.  After a
    borrow that succeeded the same holds, one more loan on the book is out
    and the book's count went down by one; after a return that succeeded the
    same holds, one loan fewer on the book is out and the count went up by
    one. *)
Theorem inventory_conservation (total_copies : Z → Z) (db : DB) :
  conserved total_copies db →
  (∀ t_init t_save u b,
     let r := BorrowBookView_post t_init t_save u b db in
     status r.1 = HTTP_201_CREATED →
     conserved total_copies r.2 ∧
     active_loans b r.2 = S (active_loans b db) ∧
     ∃ bk bk', books db !! b = Some bk ∧ books r.2 !! b = Some bk' ∧
               available_copies bk' = available_copies bk - 1) ∧
  (∀ u b,
     let r := ReturnBookView_post u b db in
     status r.1 = HTTP_200_OK →
     conserved total_copies r.2 ∧
     S (active_loans b r.2) = active_loans b db ∧
     ∃ bk bk', books db !! b = Some bk ∧ books r.2 !! b = Some bk' ∧
               available_copies bk' = available_copies bk + 1).
Proof.
  intros Hcons. destruct db as [bs ls]. split.
  - intros t_init t_save u b r Hok. subst r.
    destruct (borrow_created _ _ _ _ _ Hok) as (bk & Hbk & Hpos & ->).
    cbn in Hbk |- *.
    pose proof (fresh_pk_unused ls) as Hfresh.
    split_and!.
    + intros b' bk' Hb'. cbn in Hb'.
      rewrite (active_loans_new_row bs) by done. cbn.
      destruct (decide (b' = b)) as [->|Hne].
      * rewrite lookup_insert_eq in Hb'. simplify_eq. cbn.
        rewrite decide_True by done. specialize (Hcons _ _ Hbk). lia.
      * rewrite lookup_insert_ne in Hb' by done.
        rewrite decide_False by done. by apply Hcons.
    + rewrite (active_loans_new_row bs) by done. cbn. by rewrite decide_True.
    + exists bk, (set_available_copies (available_copies bk - 1) bk).
      by rewrite lookup_insert_eq.
  - intros u b r Hok. subst r.
    destruct (return_ok _ _ _ Hok) as (k & l & bk & _ & Hk & (Hb & _ & Hret) & Hbk & ->).
    cbn in Hk, Hb, Hret, Hbk |- *.
    pose proof (active_loans_row_returned bs
      (<[b := set_available_copies (available_copies bk + 1) bk]> bs) ls k l) as Hcount.
    split_and!.
    + intros b' bk' Hb'. cbn in Hb'.
      specialize (Hcount b' Hk Hret).
      destruct (decide (b' = b)) as [->|Hne].
      * rewrite lookup_insert_eq in Hb'. simplify_eq. cbn.
        rewrite decide_True in Hcount by done. specialize (Hcons _ _ Hbk). lia.
      * rewrite lookup_insert_ne in Hb' by done.
        rewrite decide_False in Hcount by congruence.
        rewrite <-Hcount. by apply Hcons.
    + specialize (Hcount b Hk Hret). by rewrite decide_True in Hcount.
    + exists bk, (set_available_copies (available_copies bk + 1) bk).
      by rewrite lookup_insert_eq.
Qed.

Lemma inventory_conservation_witness :
  conserved (λ _, 1) db0 ∧
  conserved (λ _, 1)
    (BorrowBookView_post 1700000000000000 1700000000000250 alice 1 db0).2.
Proof.
  assert (H0 : conserved (λ _, 1) db0).
  { intros b bk Hb. cbn in Hb. apply lookup_singleton_Some in Hb as [<- <-].
    reflexivity. }
  split; [exact H0|].
  apply (proj1 (inventory_conservation (λ _, 1) db0 H0)). reflexivity.
Defined.

(** ** Due date of a new loan *)

(** The rows that a successful borrow adds: exactly one, under the new key. *)
Lemma borrow_created_row t_init t_save u b db k l :
  status (BorrowBookView_post t_init t_save u b db).1 = HTTP_201_CREATED →
  created db (BorrowBookView_post t_init t_save u b db).2 k l ↔
  k = fresh_pk (loans db) ∧ l = borrowed_row t_init t_save u b.
Proof.
  intros Hok. destruct (borrow_created _ _ _ _ _ Hok) as (bk & _ & _ & ->).
  unfold created. cbn. rewrite lookup_insert_Some. split.
  - intros [Hnone [[<- <-]|[_ Hsome]]]; [done|congruence].
  - intros [-> ->]. split; [apply fresh_pk_unused|by left].
Qed.

(** C2, as the code has it.  The loan that a successful borrow creates has
    [borrowed_at] equal to the clock reading taken when the row is saved and
    [due_date] equal to the clock reading taken when the model object is
    instantiated plus 15 days.  So [due_date] is [borrowed_at] plus 15 days
    exactly when the two readings coincide, and is never later than that when
    the clock does not run backwards. *)
Theorem due_date_of_new_loan t_init t_save u b db :
  status (BorrowBookView_post t_init t_save u b db).1 = HTTP_201_CREATED →
  (∃ k l, created db (BorrowBookView_post t_init t_save u b db).2 k l) ∧
  ∀ k l, created db (BorrowBookView_post t_init t_save u b db).2 k l →
    borrowed_at l = t_save ∧
    due_date l = t_init + timedelta_days 15 ∧
    (due_date l = borrowed_at l + timedelta_days 15 ↔ t_init = t_save) ∧
    (t_init ≤ t_save → due_date l ≤ borrowed_at l + timedelta_days 15).
Proof.
  intros Hok. split.
  - exists (fresh_pk (loans db)), (borrowed_row t_init t_save u b).
    by apply borrow_created_row.
  - intros k l Hnew. apply borrow_created_row in Hnew as [-> ->]; [|done].
    cbn. unfold get_due_date. split_and!; [done|done|lia|lia].
Qed.

Lemma due_date_of_new_loan_witness :
  status (BorrowBookView_post 1700000000000000 1700000000000250 alice 1 db0).1
    = HTTP_201_CREATED ∧
  ∃ k l,
    created db0
      (BorrowBookView_post 1700000000000000 1700000000000250 alice 1 db0).2 k l.
Proof.
  assert (Hok : status (BorrowBookView_post 1700000000000000 1700000000000250
                          alice 1 db0).1 = HTTP_201_CREATED) by reflexivity.
  split; [exact Hok|].
  exact (proj1 (due_date_of_new_loan 1700000000000000 1700000000000250
                  alice 1 db0 Hok)).
Defined.

(** C2, as the specification words it, fails: with the clock read 250
    microseconds apart at instantiation and at save, the borrow succeeds and
    the loan it creates is due 250 microseconds before [borrowed_at] plus 15
    days. *)
Lemma due_date_exact_counterexample :
  status (BorrowBookView_post 1700000000000000 1700000000000250 alice 1 db0).1
    = HTTP_201_CREATED ∧
  ∃ k l,
    created db0
      (BorrowBookView_post 1700000000000000 1700000000000250 alice 1 db0).2 k l ∧
    borrowed_at l = 1700000000000250 ∧
    due_date l = 1701296000000000 ∧
    due_date l ≠ borrowed_at l + timedelta_days 15.
Proof.
  split; [reflexivity|].
  exists 0, (mkBorrowedBook 7 1 1700000000000250 1701296000000000 false).
  split_and!; [by split|reflexivity|reflexivity|by vm_compute].
Qed.

(** ** Errors of borrow and return *)

(** C3. Borrowing a book that does not exist answers 404 "Book not found"
    (the specification's NotFound); borrowing a book whose
    [available_copies] is 0 or less answers 400 "No copies available" (the
    specification's Conflict).  In both cases the database that comes back is
    the one that went in: no loan row is added and no book row is written. *)
Theorem borrow_errors t_init t_save u b db :
  (books db !! b = None →
   BorrowBookView_post t_init t_save u b db =
     (mkResponse (Json "error" "Book not found") HTTP_404_NOT_FOUND, db)) ∧
  (∀ bk, books db !! b = Some bk → available_copies bk ≤ 0 →
   BorrowBookView_post t_init t_save u b db =
     (mkResponse (Json "error" "No copies available") HTTP_400_BAD_REQUEST, db)).
Proof.
  rewrite BorrowBookView_post_eq. split.
  - by intros ->.
  - intros bk -> Hle. by rewrite bool_decide_eq_true_2.
Qed.

Lemma borrow_errors_witness :
  BorrowBookView_post 1700000000000000 1700000000000250 alice 2
      (mkDB {[ 1 := sicp 0 ]} ∅) =
    (mkResponse (Json "error" "Book not found") HTTP_404_NOT_FOUND,
     mkDB {[ 1 := sicp 0 ]} ∅) ∧
  BorrowBookView_post 1700000000000000 1700000000000250 alice 1
      (mkDB {[ 1 := sicp 0 ]} ∅) =
    (mkResponse (Json "error" "No copies available") HTTP_400_BAD_REQUEST,
     mkDB {[ 1 := sicp 0 ]} ∅).
Proof.
  split.
  - apply (proj1 (borrow_errors 1700000000000000 1700000000000250 alice 2
                    (mkDB {[ 1 := sicp 0 ]} ∅))).
    reflexivity.
  - apply (proj2 (borrow_errors 1700000000000000 1700000000000250 alice 1
                    (mkDB {[ 1 := sicp 0 ]} ∅)) (sicp 0)).
    + reflexivity.
    + cbn. lia.
Defined.

(** C5. When no loan row has this book, this user and [returned = False],
    return answers 404 "Borrowed book not found" (the specification's
    NotFound) and the database that comes back is the one that went in. *)
Theorem return_not_found u b db :
  (∀ k l, loans db !! k = Some l → ¬ active_for b (user_id u) (k, l)) →
  ReturnBookView_post u b db =
    (mkResponse (Json "error" "Borrowed book not found") HTTP_404_NOT_FOUND, db).
Proof.
  intros Hnone. rewrite ReturnBookView_post_eq.
  assert (Hsel : filter (active_for b (user_id u)) (loans db) = ∅).
  { apply map_empty. intros k. apply map_lookup_filter_None.
    destruct (loans db !! k) as [l|] eqn:Hk; [right|by left].
    intros l' Hl'. simplify_eq. by apply Hnone. }
  by rewrite Hsel, map_to_list_empty.
Qed.

Lemma return_not_found_witness :
  ReturnBookView_post bob 1 db_held =
    (mkResponse (Json "error" "Borrowed book not found") HTTP_404_NOT_FOUND, db_held).
Proof.
  apply (return_not_found bob 1 db_held).
  intros k l Hk. cbn in Hk. apply lookup_singleton_Some in Hk as [<- <-].
  intros (_ & Huser & _). cbn in Huser. lia.
Defined.

(** ** Borrowing a book twice, and giving it back *)

(** The selection of [ReturnBookView.post] after a borrow by the same
    user. *)
Lemma active_for_after_borrow t_init t_save u b (ls : gmap Z BorrowedBook) :
  filter (active_for b (user_id u)) (<[fresh_pk ls := borrowed_row t_init t_save u b]> ls)
  = <[fresh_pk ls := borrowed_row t_init t_save u b]> (filter (active_for b (user_id u)) ls).
Proof. by apply map_filter_insert_True. Qed.

(** C10. A user who holds an active loan on a book and borrows the same book
    again, copies being available, gets 201: the earlier loan is still
    there and active, and a second active loan for the same user and book
    sits next to it under another key. *)
Theorem borrow_same_book_again t_init t_save u b db k l bk :
  loans db !! k = Some l → active_for b (user_id u) (k, l) →
  books db !! b = Some bk → 0 < available_copies bk →
  status (BorrowBookView_post t_init t_save u b db).1 = HTTP_201_CREATED ∧
  loans (BorrowBookView_post t_init t_save u b db).2 !! k = Some l ∧
  ∃ k' l',
    k' ≠ k ∧
    created db (BorrowBookView_post t_init t_save u b db).2 k' l' ∧
    active_for b (user_id u) (k', l') ∧
    size (filter (active_for b (user_id u))
            (loans (BorrowBookView_post t_init t_save u b db).2))
    = S (size (filter (active_for b (user_id u)) (loans db))).
Proof.
  intros Hk Hact Hbk Hpos. rewrite BorrowBookView_post_eq, Hbk.
  rewrite bool_decide_eq_false_2 by lia. cbn.
  pose proof (fresh_pk_unused (loans db)) as Hfresh.
  assert (Hne : fresh_pk (loans db) ≠ k) by congruence.
  split_and!; [done|by rewrite lookup_insert_ne|].
  exists (fresh_pk (loans db)), (borrowed_row t_init t_save u b).
  split_and!; [done| |done|].
  - split; [done|]. cbn. by rewrite lookup_insert_eq.
  - by apply size_filter_insert_new.
Qed.

Lemma borrow_same_book_again_witness :
  status (BorrowBookView_post 1700000000000000 1700000000000250 alice 1 db_held).1
    = HTTP_201_CREATED ∧
  size (filter (active_for 1 7)
          (loans (BorrowBookView_post 1700000000000000 1700000000000250
                    alice 1 db_held).2)) = 2%nat.
Proof.
  pose proof (borrow_same_book_again 1700000000000000 1700000000000250 alice 1
                db_held 0 (mkBorrowedBook 7 1 1690000000000000 1691296000000000 false)
                (sicp 2) eq_refl (conj eq_refl (conj eq_refl eq_refl)) eq_refl eq_refl)
    as (Hok & _ & k' & l' & _ & _ & _ & Hsize).
  split; [exact Hok|]. exact Hsize.
Defined.

(** After a borrow by a user with no active loan on the book, the count
    being one that the column holds, the return finds that one loan, answers
    200 and puts the count back. *)
Lemma borrow_return_round_trip t_init t_save u b db :
  (∀ k l, loans db !! k = Some l → ¬ active_for b (user_id u) (k, l)) →
  (∀ bk, books db !! b = Some bk → available_copies bk ≤ PositiveIntegerField_max) →
  status (BorrowBookView_post t_init t_save u b db).1 = HTTP_201_CREATED →
  status (ReturnBookView_post u b (BorrowBookView_post t_init t_save u b db).2).1
    = HTTP_200_OK ∧
  available_copies <$>
    books (ReturnBookView_post u b (BorrowBookView_post t_init t_save u b db).2).2 !! b
  = available_copies <$> books db !! b.
Proof.
  intros Hnone Htop Hok.
  destruct (borrow_created _ _ _ _ _ Hok) as (bk & Hbk & _ & ->).
  specialize (Htop _ Hbk).
  rewrite ReturnBookView_post_eq. cbn.
  rewrite active_for_after_borrow.
  assert (Hsel : filter (active_for b (user_id u)) (loans db) = ∅).
  { apply map_empty. intros k. apply map_lookup_filter_None.
    destruct (loans db !! k) as [l|] eqn:Hk; [right|by left].
    intros l' Hl'. simplify_eq. by apply Hnone. }
  rewrite Hsel, insert_empty, map_to_list_singleton. cbn.
  rewrite lookup_insert_eq. cbn.
  rewrite bool_decide_eq_true_2 by lia. cbn. rewrite lookup_insert_eq, Hbk. cbn.
  split; [done|]. f_equal. lia.
Qed.

(** After a borrow by a user who already held an active loan on the book,
    the lookup of the return matches two rows: the answer is 500 "Return
    failed!" and nothing is written, so the count stays one below its value
    before the borrow. *)
Lemma borrow_return_stuck t_init t_save u b db k l :
  loans db !! k = Some l → active_for b (user_id u) (k, l) →
  status (BorrowBookView_post t_init t_save u b db).1 = HTTP_201_CREATED →
  ReturnBookView_post u b (BorrowBookView_post t_init t_save u b db).2
  = (mkResponse (Json "error" "Return failed!") HTTP_500_INTERNAL_SERVER_ERROR,
     (BorrowBookView_post t_init t_save u b db).2).
Proof.
  intros Hk Hact Hok.
  destruct (borrow_created _ _ _ _ _ Hok) as (bk & Hbk & _ & ->).
  rewrite ReturnBookView_post_eq. cbn.
  assert (Hsize : (2 ≤ length (map_to_list (filter (active_for b (user_id u))
             (<[fresh_pk (loans db) := borrowed_row t_init t_save u b]> (loans db)))))%nat).
  { rewrite length_map_to_list, size_filter_insert_new
      by (done || apply fresh_pk_unused).
    assert (size (filter (active_for b (user_id u)) (loans db)) ≠ 0%nat); [|lia].
    apply (map_size_ne_0_lookup_2 _ k). exists l. by apply map_lookup_filter_Some. }
  destruct (map_to_list _) as [|row [|row' rows]]; cbn in Hsize; [lia|lia|done].
Qed.

Example db_held_reached :
  (BorrowBookView_post 1690000000000000 1690000000000000 alice 1
     (mkDB {[ 1 := sicp 3 ]} ∅)).2 = db_held.
Proof. by vm_compute. Qed.

(** C6 at [db_held]: alice holds a copy of book 1, two more are on the
    shelf.  Her borrow succeeds (count 2 to 1); the return that
    follows answers 500 and leaves the count at 1 instead of 2. *)
Lemma round_trip_fails_with_two_loans :
  available_copies <$> books db_held !! 1 = Some 2 ∧
  status (BorrowBookView_post 1700000000000000 1700000000000250 alice 1 db_held).1
    = HTTP_201_CREATED ∧
  (ReturnBookView_post alice 1
     (BorrowBookView_post 1700000000000000 1700000000000250 alice 1 db_held).2).1
    = mkResponse (Json "error" "Return failed!") HTTP_500_INTERNAL_SERVER_ERROR ∧
  available_copies <$>
    books (ReturnBookView_post alice 1
             (BorrowBookView_post 1700000000000000 1700000000000250
                alice 1 db_held).2).2 !! 1
    = Some 1.
Proof. split_and!; by vm_compute. Qed.

(** ** The overdue scan *)

Lemma print_overdue_db rows db : (print_overdue rows db).2 = db.
Proof.
  induction rows as [|row rows IH]; [done|].
  cbn. unfold mbind, ORM_bind, Book_objects_get.
  destruct (books db !! book row.2); [|done].
  specialize IH. destruct (print_overdue rows db) as [[out|e] db']; by cbn in *.
Qed.

Lemma check_due_books_db now db : (check_due_books now db).2 = db.
Proof.
  unfold check_due_books, mbind, ORM_bind.
  pose proof (print_overdue_db (due_books now db) db) as Hdb.
  destruct (print_overdue _ db) as [[out|e] db']; by cbn in *.
Qed.

(** With every selected loan pointing at a book of the catalog, the loop
    prints one line per row. *)
Lemma print_overdue_ok rows db :
  (∀ row, row ∈ rows → is_Some (books db !! book row.2)) →
  ∃ out, (print_overdue rows db).1 = Ok out ∧ length out = length rows.
Proof.
  induction rows as [|row rows IH]; intros Hfk.
  - by exists [].
  - destruct (Hfk row) as [bk Hbk]; [left|].
    destruct IH as (out & Hout & Hlen).
    { intros row' Hin. apply Hfk. by right. }
    pose proof (print_overdue_db rows db) as Hdb.
    cbn. unfold mbind, ORM_bind, Book_objects_get. rewrite Hbk.
    destruct (print_overdue rows db) as [[out'|e] db']; cbn in *; [|done].
    simplify_eq. eexists. split; [done|]. cbn. by rewrite Hlen.
Qed.

(** C4. The rows that [check_due_books] selects are exactly the loans with
    [returned = False] and [due_date] before the reference time, each once,
    and none when no loan qualifies.  The task writes nothing: the database
    that comes back is the one that went in, so a second run gives what the
    first gave.  With every loan pointing at a book of the catalog the task
    returns normally, and its message carries the number of selected rows. *)
Theorem scan_overdue now db :
  (∀ k l, (k, l) ∈ due_books now db ↔
          loans db !! k = Some l ∧ returned l = false ∧ due_date l < now) ∧
  NoDup (due_books now db) ∧
  ((∀ k l, loans db !! k = Some l → ¬ (returned l = false ∧ due_date l < now)) →
   due_books now db = []) ∧
  (check_due_books now db).2 = db ∧
  check_due_books now (check_due_books now db).2 = check_due_books now db ∧
  ((∀ k l, loans db !! k = Some l → is_Some (books db !! book l)) →
   ∃ out, (check_due_books now db).1 =
            Ok (out, pretty (length (due_books now db)) +:+ " overdue books found.") ∧
          length out = length (due_books now db)).
Proof.
  split_and!.
  - intros k l. unfold due_books.
    rewrite elem_of_map_to_list, map_lookup_filter_Some. unfold overdue. cbn. tauto.
  - apply NoDup_map_to_list.
  - intros Hnone. unfold due_books. apply map_to_list_empty_iff, map_empty.
    intros k. apply map_lookup_filter_None.
    destruct (loans db !! k) as [l|] eqn:Hk; [right|by left].
    intros l' Hl'. simplify_eq. by apply (Hnone k).
  - apply check_due_books_db.
  - by rewrite check_due_books_db.
  - intros Hfk. destruct (print_overdue_ok (due_books now db) db) as (out & Hout & Hlen).
    { intros [k l] Hin. unfold due_books in Hin.
      apply elem_of_map_to_list, map_lookup_filter_Some in Hin as [Hk _].
      by apply (Hfk k). }
    exists out. split; [|done].
    unfold check_due_books, mbind, ORM_bind.
    destruct (print_overdue _ db) as [[out'|e] db']; cbn in *; by simplify_eq.
Qed.

Lemma scan_overdue_witness :
  due_books 1691296000000000 db_held = [] ∧
  ∃ out, (check_due_books 1691296000000001 db_held).1 =
           Ok (out, "1 overdue books found.") ∧ length out = 1%nat.
Proof.
  split.
  - apply (proj1 (proj2 (proj2 (scan_overdue 1691296000000000 db_held)))).
    intros k l Hk. cbn in Hk. apply lookup_singleton_Some in Hk as [<- <-].
    cbn. lia.
  - apply (proj2 (proj2 (proj2 (proj2 (proj2
             (scan_overdue 1691296000000001 db_held)))))).
    intros k l Hk. cbn in Hk. apply lookup_singleton_Some in Hk as [<- <-].
    by exists (sicp 2).
Defined.

(** ** Invariants along sequences of operations *)

Lemma run_snoc ops op db : run (ops ++ [op]) db = step (run ops db) op.
Proof. unfold run. by rewrite foldl_app. Qed.

Lemma step_nonneg db op : nonneg db → nonneg (step db op).
Proof.
  intros Hnn. destruct op as [t_init t_save u b|u b|now]; cbn.
  - rewrite BorrowBookView_post_eq.
    destruct (books db !! b) as [bk|] eqn:Hbk; [|done].
    case_bool_decide as Hle; [done|].
    intros b' bk' Hb'. cbn in Hb'.
    apply lookup_insert_Some in Hb' as [[<- <-]|[_ Hb']]; [cbn; lia|by eapply Hnn].
  - rewrite ReturnBookView_post_eq.
    destruct (map_to_list _) as [|row [|row' rows]]; [done| |done].
    cbn. destruct (books db !! book row.2) as [bk|] eqn:Hbk; [|done].
    case_bool_decide; [|done].
    intros b' bk' Hb'. cbn in Hb'.
    apply lookup_insert_Some in Hb' as [[<- <-]|[_ Hb']]; [|by eapply Hnn].
    cbn. specialize (Hnn _ _ Hbk). lia.
  - by rewrite check_due_books_db.
Qed.

(** C7. From a database in which no book has a negative
    [available_copies], no sequence of borrows, returns and overdue scans
    reaches a database in which some book has one. *)
Theorem available_copies_nonneg ops db : nonneg db → nonneg (run ops db).
Proof.
  intros Hnn. induction ops as [|op ops IH] using rev_ind; [done|].
  rewrite run_snoc. by apply step_nonneg.
Qed.

Lemma available_copies_nonneg_witness :
  nonneg db0 ∧
  nonneg (run [Borrow 1700000000000000 1700000000000250 alice 1;
               Borrow 1700000000500000 1700000000500250 bob 1;
               ScanOverdue 1701300000000000;
               Return alice 1] db0).
Proof.
  assert (H0 : nonneg db0).
  { intros b bk Hb. cbn in Hb. apply lookup_singleton_Some in Hb as [<- <-].
    cbn. lia. }
  split; [exact H0|]. by apply (available_copies_nonneg _ db0).
Defined.

Lemma step_returned_frozen db op k l :
  loans db !! k = Some l → returned l = true → loans (step db op) !! k = Some l.
Proof.
  intros Hk Hret. destruct op as [t_init t_save u b|u b|now]; cbn.
  - rewrite BorrowBookView_post_eq.
    destruct (books db !! b) as [bk|]; [|done].
    case_bool_decide; [done|]. cbn.
    rewrite lookup_insert_ne; [done|].
    pose proof (fresh_pk_unused (loans db)). congruence.
  - rewrite ReturnBookView_post_eq.
    destruct (map_to_list _) as [|[k' l'] [|row' rows]] eqn:Hsel; [done| |done].
    destruct (selected_row _ _ _ _ Hsel) as [Hk' (_ & _ & Hact)]. cbn in Hk', Hact.
    assert (k' ≠ k) by (intros ->; congruence).
    cbn. destruct (books db !! book l'); [case_bool_decide|]; cbn;
      by rewrite lookup_insert_ne.
  - by rewrite check_due_books_db.
Qed.

Lemma step_created_active db op k l :
  created db (step db op) k l → returned l = false.
Proof.
  intros [Hnone Hsome]. destruct op as [t_init t_save u b|u b|now]; cbn in Hsome.
  - rewrite BorrowBookView_post_eq in Hsome.
    destruct (books db !! b) as [bk|]; [|cbn in Hsome; congruence].
    case_bool_decide; cbn in Hsome; [congruence|].
    apply lookup_insert_Some in Hsome as [[_ <-]|[_ ?]]; [done|congruence].
  - rewrite ReturnBookView_post_eq in Hsome.
    destruct (map_to_list _) as [|[k' l'] [|row' rows]] eqn:Hsel;
      [cbn in Hsome; congruence| |cbn in Hsome; congruence].
    destruct (selected_row _ _ _ _ Hsel) as [Hk' _]. cbn in Hk'.
    assert (loans (mkDB (books db) (<[k' := set_returned true l']> (loans db))) !! k
            = Some l) as Hsome'.
    { cbn in Hsome. destruct (books db !! book l'); [case_bool_decide|]; done. }
    cbn in Hsome'.
    apply lookup_insert_Some in Hsome' as [[<- _]|[_ ?]]; congruence.
  - rewrite check_due_books_db in Hsome. congruence.
Qed.

(** C9. A loan row that appears under a new key after a borrow, a return
    or an overdue scan has [returned = False].  A loan row with
    [returned = True] is still there, unchanged in every field, after any
    sequence of borrows, returns and overdue scans; in particular its flag
    never goes back to [False]. *)
Theorem returned_is_terminal :
  (∀ db op k l, created db (step db op) k l → returned l = false) ∧
  (∀ ops db k l,
     loans db !! k = Some l → returned l = true →
     loans (run ops db) !! k = Some l).
Proof.
  split.
  - apply step_created_active.
  - intros ops db k l Hk Hret.
    induction ops as [|op ops IH] using rev_ind; [done|].
    rewrite run_snoc. by apply step_returned_frozen.
Qed.

Lemma returned_is_terminal_witness :
  loans (run [Borrow 1700000000000000 1700000000000250 alice 1;
              Return alice 1;
              ScanOverdue 1701300000000000] db0) !! 0
  = Some (mkBorrowedBook 7 1 1700000000000250 1701296000000000 true) ∧
  loans (run [Borrow 1700000000500000 1700000000500250 bob 1;
              Return bob 1;
              ScanOverdue 1701300000000000]
           (run [Borrow 1700000000000000 1700000000000250 alice 1;
                 Return alice 1;
                 ScanOverdue 1701300000000000] db0)) !! 0
  = Some (mkBorrowedBook 7 1 1700000000000250 1701296000000000 true).
Proof.
  assert (H1 : loans (run [Borrow 1700000000000000 1700000000000250 alice 1;
                           Return alice 1;
                           ScanOverdue 1701300000000000] db0) !! 0
               = Some (mkBorrowedBook 7 1 1700000000000250 1701296000000000 true))
    by (by vm_compute).
  split; [exact H1|].
  apply (proj2 returned_is_terminal _ _ _ _ H1). reflexivity.
Defined.

(** ** Catalog permissions *)

(** For a user who is neither admin nor librarian each hook returns the
    403 response and writes nothing. *)
Lemma perform_hooks_denied u db :
  role u ∉ ["admin"; "librarian"] →
  (∀ serializer,
     BookCreateView_perform_create u serializer db
       = ((Some permission_denied, serializer), db) ∧
     BookUpdateDeleteView_perform_update u serializer db
       = ((Some permission_denied, serializer), db)) ∧
  (∀ obj,
     BookUpdateDeleteView_perform_destroy u obj db = (Some permission_denied, db)).
Proof.
  intros Hrole.
  unfold BookCreateView_perform_create, BookUpdateDeleteView_perform_update,
    BookUpdateDeleteView_perform_destroy, try_except.
  by rewrite !bool_decide_eq_true_2.
Qed.

(** How the three request handlers unfold: the data is validated, then the
    hook runs and its return value is dropped. *)
Lemma BookCreateView_create_eq u request_data db :
  BookCreateView_create u request_data db =
  match field_errors None request_data db with
  | [] =>
      if bool_decide (role u ∉ ["admin"; "librarian"]) then
        (mkResponse (BookJson None request_data) HTTP_201_CREATED, db)
      else
        (mkResponse (BookJson (Some (fresh_pk (books db))) request_data)
                    HTTP_201_CREATED,
         mkDB (<[fresh_pk (books db) := request_data]> (books db)) (loans db))
  | fields => (mkResponse (FieldErrors fields) HTTP_400_BAD_REQUEST, db)
  end.
Proof.
  unfold BookCreateView_create, try_except, mbind, ORM_bind, is_valid, call,
    BookCreateView_perform_create, try_except.
  cbn. destruct (field_errors None request_data db); [|done].
  by case_bool_decide.
Qed.

Lemma BookUpdateDeleteView_update_eq u pk request_data db :
  BookUpdateDeleteView_update u pk request_data db =
  match books db !! pk with
  | None => (not_found, db)
  | Some bk =>
      match field_errors (Some pk) request_data db with
      | [] =>
          if bool_decide (role u ∉ ["admin"; "librarian"]) then
            (mkResponse (BookJson (Some pk) bk) HTTP_200_OK, db)
          else
            (mkResponse (BookJson (Some pk) request_data) HTTP_200_OK,
             mkDB (<[pk := request_data]> (books db)) (loans db))
      | fields => (mkResponse (FieldErrors fields) HTTP_400_BAD_REQUEST, db)
      end
  end.
Proof.
  unfold BookUpdateDeleteView_update, try_except, mbind, ORM_bind, get_object,
    is_valid, call, BookUpdateDeleteView_perform_update, try_except.
  destruct (books db !! pk) as [bk|]; [|done].
  cbn. destruct (field_errors (Some pk) request_data db); [|done].
  by case_bool_decide.
Qed.

Lemma BookUpdateDeleteView_destroy_eq u pk db :
  BookUpdateDeleteView_destroy u pk db =
  match books db !! pk with
  | None => (not_found, db)
  | Some bk =>
      if bool_decide (role u ∉ ["admin"; "librarian"]) then
        (mkResponse Empty HTTP_204_NO_CONTENT, db)
      else
        (mkResponse Empty HTTP_204_NO_CONTENT,
         mkDB (delete pk (books db)) (filter (λ row, book row.2 ≠ pk) (loans db)))
  end.
Proof.
  unfold BookUpdateDeleteView_destroy, try_except, mbind, ORM_bind, get_object,
    call, BookUpdateDeleteView_perform_destroy, try_except.
  destruct (books db !! pk) as [bk|]; [|done].
  cbn. by case_bool_decide.
Qed.

(** C8 at a member: alice, whose role is "member", asks to create a book
    that the catalog does not have, to update book 1 and to delete book 1,
    each time with data that passes validation.  Each hook returns the 403
    response and the catalog stays as it was, but what the three requests are
    answered is 201, 200 and 204, not 403. *)
Lemma member_is_not_answered_403 :
  field_errors None (htdp 3) db0 = [] ∧
  BookCreateView_perform_create alice (mkSerializer None (htdp 3)) db0
    = ((Some permission_denied, mkSerializer None (htdp 3)), db0) ∧
  BookCreateView_create alice (htdp 3) db0
    = (mkResponse (BookJson None (htdp 3)) HTTP_201_CREATED, db0) ∧
  field_errors (Some 1) (sicp 3) db0 = [] ∧
  BookUpdateDeleteView_perform_update alice
      (mkSerializer (Some (1, sicp 1)) (sicp 3)) db0
    = ((Some permission_denied, mkSerializer (Some (1, sicp 1)) (sicp 3)), db0) ∧
  BookUpdateDeleteView_update alice 1 (sicp 3) db0
    = (mkResponse (BookJson (Some 1) (sicp 1)) HTTP_200_OK, db0) ∧
  BookUpdateDeleteView_perform_destroy alice (1, sicp 1) db0
    = (Some permission_denied, db0) ∧
  BookUpdateDeleteView_destroy alice 1 db0
    = (mkResponse Empty HTTP_204_NO_CONTENT, db0).
Proof. split_and!; by vm_compute. Qed.

(** * Further properties of the views *)

(** ** Borrow *)

(** X1. A borrow is answered 201 exactly when the book exists and has a
    positive [available_copies]; who asks (role, user name) plays no part. *)
Theorem borrow_succeeds_iff t_init t_save u b db :
  status (BorrowBookView_post t_init t_save u b db).1 = HTTP_201_CREATED ↔
  ∃ bk, books db !! b = Some bk ∧ 0 < available_copies bk.
Proof.
  split.
  - intros Hok. destruct (borrow_created _ _ _ _ _ Hok) as (bk & ? & ? & _). eauto.
  - intros (bk & Hbk & Hpos). rewrite BorrowBookView_post_eq, Hbk.
    by rewrite bool_decide_eq_false_2 by lia.
Qed.

(** X2. A borrow that succeeded wrote nothing else: every other book is as
    it was, the borrowed book differs in [available_copies] only, every loan
    that was in the table is still there unchanged, and the table has exactly
    one row more. *)
Theorem borrow_frame t_init t_save u b db :
  status (BorrowBookView_post t_init t_save u b db).1 = HTTP_201_CREATED →
  (∀ b', b' ≠ b →
     books (BorrowBookView_post t_init t_save u b db).2 !! b' = books db !! b') ∧
  (∃ bk, books db !! b = Some bk ∧
     books (BorrowBookView_post t_init t_save u b db).2 !! b
       = Some (set_available_copies (available_copies bk - 1) bk)) ∧
  (∀ k l, loans db !! k = Some l →
     loans (BorrowBookView_post t_init t_save u b db).2 !! k = Some l) ∧
  size (loans (BorrowBookView_post t_init t_save u b db).2) = S (size (loans db)).
Proof.
  intros Hok. destruct (borrow_created _ _ _ _ _ Hok) as (bk & Hbk & _ & ->). cbn.
  pose proof (fresh_pk_unused (loans db)) as Hfresh.
  split_and!.
  - intros b' Hne. by rewrite lookup_insert_ne.
  - exists bk. by rewrite lookup_insert_eq.
  - intros k l Hk. rewrite lookup_insert_ne; [done|congruence].
  - by apply map_size_insert_None.
Qed.

Lemma borrow_frame_witness :
  size (loans (BorrowBookView_post 1700000000000000 1700000000000250
                 bob 1 db_held).2) = 2%nat.
Proof.
  apply (borrow_frame 1700000000000000 1700000000000250 bob 1 db_held).
  reflexivity.
Defined.

(** ** Return *)

(** The selection of a return has as many rows as the filtered table. *)
Lemma selection_length b uid (ls : gmap Z BorrowedBook) :
  length (map_to_list (filter (active_for b uid) ls))
  = size (filter (active_for b uid) ls).
Proof. apply length_map_to_list. Qed.

(** X3. With every loan pointing at a book of the catalog and the count of
    the book below the top of the range of its column, a return is answered
    200 exactly when the user has one and only one active loan on the book,
    and a return that is not answered 200 wrote nothing. *)
Theorem return_succeeds_iff u b db :
  fk_ok db →
  (∀ bk, books db !! b = Some bk → available_copies bk < PositiveIntegerField_max) →
  (status (ReturnBookView_post u b db).1 = HTTP_200_OK ↔
   size (filter (active_for b (user_id u)) (loans db)) = 1%nat) ∧
  (status (ReturnBookView_post u b db).1 ≠ HTTP_200_OK →
   (ReturnBookView_post u b db).2 = db).
Proof.
  intros Hfk Htop. rewrite ReturnBookView_post_eq, <-selection_length.
  destruct (map_to_list _) as [|[k l] [|row' rows]] eqn:Hsel; [done| |done].
  destruct (selected_row _ _ _ _ Hsel) as [Hk (Hb & _)]. cbn in Hk, Hb.
  destruct (Hfk _ _ Hk) as [bk Hbk]. cbn. rewrite Hbk.
  rewrite Hb in Hbk. specialize (Htop _ Hbk).
  by rewrite bool_decide_eq_true_2 by lia.
Qed.

Lemma return_succeeds_iff_witness :
  status (ReturnBookView_post alice 1 db_held).1 = HTTP_200_OK ∧
  (ReturnBookView_post bob 1 db_held).2 = db_held.
Proof.
  assert (Hfk : fk_ok db_held).
  { intros k l Hk. cbn in Hk. apply lookup_singleton_Some in Hk as [<- <-].
    by exists (sicp 2). }
  assert (Htop : ∀ bk, books db_held !! 1 = Some bk →
                       available_copies bk < PositiveIntegerField_max).
  { intros bk Hbk. cbn in Hbk. apply lookup_singleton_Some in Hbk as [_ <-].
    by vm_compute. }
  split.
  - apply (proj1 (return_succeeds_iff alice 1 db_held Hfk Htop)). reflexivity.
  - apply (proj2 (return_succeeds_iff bob 1 db_held Hfk Htop)). by vm_compute.
Defined.

(** X4. A return that succeeded marked one loan of this user and book and
    gave the book one copy back, and wrote nothing else: the marked loan
    keeps its user, book, [borrowed_at] and [due_date], every other loan and
    every other book is as it was, and no loan row was added or removed. *)
Theorem return_frame u b db :
  status (ReturnBookView_post u b db).1 = HTTP_200_OK →
  ∃ k l,
    loans db !! k = Some l ∧ active_for b (user_id u) (k, l) ∧
    loans (ReturnBookView_post u b db).2 !! k
      = Some (mkBorrowedBook (user l) (book l) (borrowed_at l) (due_date l) true) ∧
    (∀ k', k' ≠ k → loans (ReturnBookView_post u b db).2 !! k' = loans db !! k') ∧
    (∀ b', b' ≠ b → books (ReturnBookView_post u b db).2 !! b' = books db !! b') ∧
    (∃ bk, books db !! b = Some bk ∧
       books (ReturnBookView_post u b db).2 !! b
         = Some (set_available_copies (available_copies bk + 1) bk)) ∧
    size (loans (ReturnBookView_post u b db).2) = size (loans db).
Proof.
  intros Hok.
  destruct (return_ok _ _ _ Hok) as (k & l & bk & _ & Hk & Hact & Hbk & ->). cbn.
  exists k, l. split_and!; [done|done|by rewrite lookup_insert_eq| | | |].
  - intros k' Hne. by rewrite lookup_insert_ne.
  - intros b' Hne. by rewrite lookup_insert_ne.
  - exists bk. by rewrite lookup_insert_eq.
  - apply map_size_insert_Some. eauto.
Qed.

Lemma return_frame_witness :
  ∃ k l,
    loans db_held !! k = Some l ∧ active_for 1 7 (k, l) ∧
    loans (ReturnBookView_post alice 1 db_held).2 !! k
      = Some (mkBorrowedBook (user l) (book l) (borrowed_at l) (due_date l) true).
Proof.
  destruct (return_frame alice 1 db_held eq_refl)
    as (k & l & Hk & Hact & Hk' & _).
  exists k, l. by split_and!.
Defined.

(** X5. A return cannot be repeated: straight after a return that
    succeeded, the same return is answered 404 and writes nothing. *)
Theorem return_twice u b db :
  status (ReturnBookView_post u b db).1 = HTTP_200_OK →
  ReturnBookView_post u b (ReturnBookView_post u b db).2
  = (mkResponse (Json "error" "Borrowed book not found") HTTP_404_NOT_FOUND,
     (ReturnBookView_post u b db).2).
Proof.
  intros Hok.
  destruct (return_ok _ _ _ Hok) as (k & l & bk & Hsel & Hk & Hact & Hbk & ->).
  rewrite ReturnBookView_post_eq. cbn.
  assert (Hnone : filter (active_for b (user_id u))
                    (<[k := set_returned true l]> (loans db)) = ∅).
  { rewrite map_filter_insert_False by (by intros (_ & _ & ?)).
    rewrite map_filter_delete.
    apply map_to_list_empty_iff, length_zero_iff_nil.
    rewrite length_map_to_list, map_size_delete.
    by rewrite <-length_map_to_list, Hsel, (map_lookup_filter_Some_2 _ _ _ l). }
  by rewrite Hnone, map_to_list_empty.
Qed.

Lemma return_twice_witness :
  ReturnBookView_post alice 1 (ReturnBookView_post alice 1 db_held).2
  = (mkResponse (Json "error" "Borrowed book not found") HTTP_404_NOT_FOUND,
     (ReturnBookView_post alice 1 db_held).2).
Proof. apply (return_twice alice 1 db_held). reflexivity. Defined.

(** ** Borrow and return together *)

(** X6. On a book with at least as many copies as there are requests, a run
    of borrows takes one copy per request and adds one active loan per
    request; when the requests are as many as the copies, the book is then
    out of stock and the next borrow, whoever asks, is answered 400 and
    writes nothing. *)
Theorem borrow_until_out b reqs db bk :
  books db !! b = Some bk →
  Z.of_nat (length reqs) ≤ available_copies bk →
  (∃ bk', books (run (borrow_each b reqs) db) !! b = Some bk' ∧
          available_copies bk' = available_copies bk - Z.of_nat (length reqs)) ∧
  active_loans b (run (borrow_each b reqs) db)
    = (active_loans b db + length reqs)%nat ∧
  (Z.of_nat (length reqs) = available_copies bk →
   ∀ t_init t_save u,
     BorrowBookView_post t_init t_save u b (run (borrow_each b reqs) db)
     = (mkResponse (Json "error" "No copies available") HTTP_400_BAD_REQUEST,
        run (borrow_each b reqs) db)).
Proof.
  revert db bk. induction reqs as [|[[t1 t2] u1] reqs IH]; intros db bk Hbk Hle.
  - cbn. split_and!.
    + exists bk. split; [done|lia].
    + lia.
    + intros Hzero t_init t_save u. rewrite BorrowBookView_post_eq, Hbk.
      by rewrite bool_decide_eq_true_2 by (cbn in Hzero; lia).
  - cbn [length] in Hle |- *.
    change (run (borrow_each b ((t1, t2, u1) :: reqs)) db)
      with (run (borrow_each b reqs) (BorrowBookView_post t1 t2 u1 b db).2).
    rewrite BorrowBookView_post_eq, Hbk.
    rewrite bool_decide_eq_false_2 by lia. cbn [snd].
    set (db1 := mkDB _ _).
    assert (Hbk1 : books db1 !! b
                   = Some (set_available_copies (available_copies bk - 1) bk))
      by (cbn; by rewrite lookup_insert_eq).
    assert (Hcount : active_loans b db1 = S (active_loans b db)).
    { subst db1. destruct db as [bs ls]. cbn.
      rewrite (active_loans_new_row bs) by (done || apply fresh_pk_unused).
      cbn. by rewrite decide_True. }
    destruct (IH db1 _ Hbk1) as ((bk' & Hbk' & Hav) & Hact & Hout).
    { cbn. lia. }
    split_and!.
    + exists bk'. split; [done|]. cbn in Hav. lia.
    + rewrite Hact, Hcount. lia.
    + intros Hall. apply Hout. cbn. lia.
Qed.

Lemma borrow_until_out_witness :
  BorrowBookView_post 1700000002000000 1700000002000250 alice 1
    (run (borrow_each 1 [(1700000000000000, 1700000000000250, bob);
                         (1700000001000000, 1700000001000250, bob)]) db_held)
  = (mkResponse (Json "error" "No copies available") HTTP_400_BAD_REQUEST,
     run (borrow_each 1 [(1700000000000000, 1700000000000250, bob);
                         (1700000001000000, 1700000001000250, bob)]) db_held).
Proof.
  assert (Hbk : books db_held !! 1 = Some (sicp 2)) by reflexivity.
  assert (Hle : Z.of_nat 2 ≤ available_copies (sicp 2)) by (cbn; lia).
  apply (proj2 (proj2 (borrow_until_out 1
           [(1700000000000000, 1700000000000250, bob);
            (1700000001000000, 1700000001000250, bob)] db_held (sicp 2) Hbk Hle))).
  reflexivity.
Defined.

(** X7. A return that succeeded on a book whose count was not negative
    leaves a copy on the shelf: the next borrow of that book, whoever asks,
    is answered 201. *)
Theorem return_then_borrow u b db t_init t_save u' :
  (∀ bk, books db !! b = Some bk → 0 ≤ available_copies bk) →
  status (ReturnBookView_post u b db).1 = HTTP_200_OK →
  status (BorrowBookView_post t_init t_save u' b (ReturnBookView_post u b db).2).1
    = HTTP_201_CREATED.
Proof.
  intros Hnn Hok.
  destruct (return_ok _ _ _ Hok) as (k & l & bk & _ & _ & _ & Hbk & ->).
  rewrite BorrowBookView_post_eq. cbn. rewrite lookup_insert_eq. cbn.
  specialize (Hnn _ Hbk). by rewrite bool_decide_eq_false_2 by lia.
Qed.

Lemma return_then_borrow_witness :
  status (BorrowBookView_post 1700000000000000 1700000000000250 bob 1
            (ReturnBookView_post alice 1 db_held).2).1 = HTTP_201_CREATED.
Proof.
  apply (return_then_borrow alice 1 db_held).
  - intros bk Hbk. cbn in Hbk. apply lookup_singleton_Some in Hbk as [_ <-].
    cbn. lia.
  - reflexivity.
Defined.

(** ** What the loan operations leave alone *)

Lemma set_returned_idem l : set_returned true (set_returned true l) = set_returned true l.
Proof. done. Qed.

Lemma step_loan_kept db op k l :
  loans db !! k = Some l →
  loans (step db op) !! k = Some l ∨
  loans (step db op) !! k = Some (set_returned true l).
Proof.
  intros Hk. destruct op as [t_init t_save u b|u b|now]; cbn.
  - rewrite BorrowBookView_post_eq.
    destruct (books db !! b) as [bk|]; [|by left].
    case_bool_decide; [by left|]. cbn. left.
    rewrite lookup_insert_ne; [done|].
    pose proof (fresh_pk_unused (loans db)). congruence.
  - rewrite ReturnBookView_post_eq.
    destruct (map_to_list _) as [|[k' l'] [|row' rows]] eqn:Hsel; [by left| |by left].
    destruct (selected_row _ _ _ _ Hsel) as [Hk' _]. cbn in Hk'.
    assert (Hloans : loans (mkDB (books db) (<[k' := set_returned true l']> (loans db))) !! k
                     = Some l ∨
                     loans (mkDB (books db) (<[k' := set_returned true l']> (loans db))) !! k
                     = Some (set_returned true l)).
    { cbn. destruct (decide (k' = k)) as [->|Hne].
      - right. rewrite lookup_insert_eq. congruence.
      - left. by rewrite lookup_insert_ne. }
    cbn. destruct (books db !! book l'); [case_bool_decide|]; done.
  - rewrite check_due_books_db. by left.
Qed.

(** X8. Borrows, returns and overdue scans never delete a loan and never
    rewrite one: after any sequence of them a loan row is still under its
    key, either unchanged or changed in nothing but [returned], set to
    [True]; its user, book, [borrowed_at] and [due_date] are what they
    were. *)
Theorem loans_are_kept ops db k l :
  loans db !! k = Some l →
  (loans (run ops db) !! k = Some l ∨
   loans (run ops db) !! k = Some (set_returned true l)) ∧
  ∃ l', loans (run ops db) !! k = Some l' ∧
        user l' = user l ∧ book l' = book l ∧
        borrowed_at l' = borrowed_at l ∧ due_date l' = due_date l.
Proof.
  intros Hk.
  assert (Hkept : loans (run ops db) !! k = Some l ∨
                  loans (run ops db) !! k = Some (set_returned true l)).
  { induction ops as [|op ops IH] using rev_ind; [by left|].
    rewrite run_snoc. destruct IH as [IH|IH].
    - by apply step_loan_kept.
    - destruct (step_loan_kept _ op _ _ IH) as [H|H]; right; [done|].
      by rewrite H, set_returned_idem. }
  split; [done|]. destruct Hkept as [H|H]; eauto 10.
Qed.

Lemma loans_are_kept_witness :
  ∃ l', loans (run [Borrow 1700000000000000 1700000000000250 bob 1;
                    Return alice 1;
                    ScanOverdue 1701300000000000] db_held) !! 0 = Some l' ∧
        user l' = 7 ∧ book l' = 1 ∧
        borrowed_at l' = 1690000000000000 ∧ due_date l' = 1691296000000000.
Proof.
  exact (proj2 (loans_are_kept
                  [Borrow 1700000000000000 1700000000000250 bob 1;
                   Return alice 1;
                   ScanOverdue 1701300000000000] db_held 0
                  (mkBorrowedBook 7 1 1690000000000000 1691296000000000 false)
                  eq_refl)).
Defined.

Lemma step_book_kept db op b :
  match books db !! b with
  | None => books (step db op) !! b = None
  | Some bk => ∃ n, books (step db op) !! b = Some (set_available_copies n bk)
  end.
Proof.
  assert (Hsame : match books db !! b with
                  | None => books db !! b = None
                  | Some bk => ∃ n, books db !! b = Some (set_available_copies n bk)
                  end).
  { destruct (books db !! b) as [bk|] eqn:Hb; [|done].
    exists (available_copies bk). by destruct bk. }
  assert (Hput : ∀ b0 bk0 n0, books db !! b0 = Some bk0 →
            match books db !! b with
            | None => <[b0 := set_available_copies n0 bk0]> (books db) !! b = None
            | Some bk => ∃ n, <[b0 := set_available_copies n0 bk0]> (books db) !! b
                              = Some (set_available_copies n bk)
            end).
  { intros b0 bk0 n0 Hb0. destruct (decide (b0 = b)) as [->|Hne].
    - rewrite Hb0. exists n0. by rewrite lookup_insert_eq.
    - destruct (books db !! b) as [bk|] eqn:Hb.
      + exists (available_copies bk). rewrite lookup_insert_ne, Hb by done.
        by destruct bk.
      + by rewrite lookup_insert_ne. }
  destruct op as [t_init t_save u b0|u b0|now]; cbn.
  - rewrite BorrowBookView_post_eq.
    destruct (books db !! b0) as [bk0|] eqn:Hb0; [|done].
    case_bool_decide; [done|]. cbn. by apply Hput.
  - rewrite ReturnBookView_post_eq.
    destruct (map_to_list _) as [|row [|row' rows]]; [done| |done].
    cbn. destruct (books db !! book row.2) as [bk0|] eqn:Hb0; [|done].
    case_bool_decide; [|done]. cbn. by apply Hput.
  - by rewrite check_due_books_db.
Qed.

(** X9. Borrows, returns and overdue scans neither add nor remove a book,
    and of a book they change nothing but [available_copies]: title, author,
    ISBN, publication date and page count are what they were after any
    sequence of them. *)
Theorem books_are_kept ops db b :
  (books db !! b = None → books (run ops db) !! b = None) ∧
  (∀ bk, books db !! b = Some bk →
     ∃ n, books (run ops db) !! b = Some (set_available_copies n bk)).
Proof.
  induction ops as [|op ops [IHnone IHsome]] using rev_ind.
  - split; [done|]. intros bk Hb. exists (available_copies bk). by destruct bk.
  - rewrite run_snoc. pose proof (step_book_kept (run ops db) op b) as Hstep.
    split.
    + intros Hb. by rewrite (IHnone Hb) in Hstep.
    + intros bk Hb. destruct (IHsome _ Hb) as [n Hn]. rewrite Hn in Hstep.
      destruct Hstep as [n' Hn']. by exists n'.
Qed.

Lemma books_are_kept_witness :
  books (run [Borrow 1700000000000000 1700000000000250 bob 2;
              Return alice 1] db_held) !! 2 = None ∧
  ∃ n, books (run [Borrow 1700000000000000 1700000000000250 bob 2;
                   Return alice 1] db_held) !! 1
       = Some (set_available_copies n (sicp 2)).
Proof.
  split.
  - apply (proj1 (books_are_kept _ db_held 2)). reflexivity.
  - apply (proj2 (books_are_kept _ db_held 1)). reflexivity.
Defined.

(** ** Conservation along sequences *)

Lemma step_conserved total_copies db op :
  (∀ b, total_copies b ≤ PositiveIntegerField_max) →
  conserved total_copies db → conserved total_copies (step db op).
Proof.
  intros Htop Hcons. destruct db as [bs ls].
  destruct op as [t_init t_save u b|u b|now]; cbn [step].
  - rewrite BorrowBookView_post_eq. cbn [books loans].
    destruct (bs !! b) as [bk|] eqn:Hbk; [|done].
    case_bool_decide; [done|]. cbn [snd].
    intros b' bk' Hb'. cbn in Hb'.
    rewrite (active_loans_new_row bs) by (done || apply fresh_pk_unused). cbn.
    destruct (decide (b' = b)) as [->|Hne].
    + rewrite lookup_insert_eq in Hb'. simplify_eq. cbn.
      rewrite decide_True by done. specialize (Hcons _ _ Hbk). lia.
    + rewrite lookup_insert_ne in Hb' by done.
      rewrite decide_False by done. by apply Hcons.
  - rewrite ReturnBookView_post_eq. cbn [books loans].
    destruct (map_to_list _) as [|[k l] [|row' rows]] eqn:Hsel; [done| |done].
    destruct (selected_row _ _ _ _ Hsel) as [Hk (_ & _ & Hret)]. cbn in Hk, Hret.
    cbn [fst snd].
    destruct (bs !! book l) as [bk|] eqn:Hbk.
    + rewrite bool_decide_eq_true_2; cycle 1.
      { pose proof (Hcons _ _ Hbk) as Hbook. specialize (Htop (book l)).
        assert (active_loans (book l) (mkDB bs ls) ≠ 0%nat); [|lia].
        apply (map_size_ne_0_lookup_2 _ k). exists l.
        by apply map_lookup_filter_Some. }
      cbn [snd]. intros b' bk' Hb'. cbn in Hb'.
      pose proof (active_loans_row_returned bs
        (<[book l := set_available_copies (available_copies bk + 1) bk]> bs)
        ls k l b' Hk Hret) as Hcount.
      destruct (decide (b' = book l)) as [->|Hne].
      * rewrite lookup_insert_eq in Hb'. simplify_eq. cbn.
        rewrite decide_True in Hcount by done. specialize (Hcons _ _ Hbk). lia.
      * rewrite lookup_insert_ne in Hb' by done.
        rewrite decide_False in Hcount by done.
        rewrite <-Hcount. by apply Hcons.
    + cbn [snd]. intros b' bk' Hb'. cbn in Hb'.
      pose proof (active_loans_row_returned bs bs ls k l b' Hk Hret) as Hcount.
      rewrite decide_False in Hcount by congruence.
      rewrite <-Hcount. by apply Hcons.
  - by rewrite check_due_books_db.
Qed.

(** X10. Take totals that fit the column and a database in which every
    book's count is its total minus its active loans and no count is
    negative.  Every sequence of borrows, returns and overdue scans, whatever
    each was answered, reaches a database where the same holds; so a book
    never has more active loans than it has copies in total. *)
Theorem loans_never_exceed_total total_copies ops db :
  (∀ b, total_copies b ≤ PositiveIntegerField_max) →
  conserved total_copies db → nonneg db →
  conserved total_copies (run ops db) ∧
  nonneg (run ops db) ∧
  ∀ b bk, books (run ops db) !! b = Some bk →
    Z.of_nat (active_loans b (run ops db)) ≤ total_copies b.
Proof.
  intros Htop Hcons Hnn.
  assert (Hinv : conserved total_copies (run ops db) ∧ nonneg (run ops db)).
  { induction ops as [|op ops [IHc IHn]] using rev_ind; [done|].
    rewrite run_snoc. split; [by apply step_conserved|by apply step_nonneg]. }
  destruct Hinv as [Hc Hn]. split_and!; [done|done|].
  intros b bk Hb. specialize (Hc _ _ Hb). specialize (Hn _ _ Hb). lia.
Qed.

Lemma loans_never_exceed_total_witness :
  Z.of_nat (active_loans 1
     (run [Borrow 1700000000000000 1700000000000250 bob 1;
           Borrow 1700000001000000 1700000001000250 alice 1;
           Borrow 1700000002000000 1700000002000250 bob 1;
           Return bob 1] db_held)) ≤ 3.
Proof.
  assert (Hc : conserved (λ _, 3) db_held).
  { intros b bk Hb. cbn in Hb. apply lookup_singleton_Some in Hb as [<- <-].
    reflexivity. }
  assert (Hn : nonneg db_held).
  { intros b bk Hb. cbn in Hb. apply lookup_singleton_Some in Hb as [<- <-].
    cbn. lia. }
  assert (Htop : ∀ b : Z, (λ _, 3) b ≤ PositiveIntegerField_max)
    by (intros _; by vm_compute).
  destruct (loans_never_exceed_total (λ _, 3)
              [Borrow 1700000000000000 1700000000000250 bob 1;
               Borrow 1700000001000000 1700000001000250 alice 1;
               Borrow 1700000002000000 1700000002000250 bob 1;
               Return bob 1] db_held Htop Hc Hn) as (_ & _ & Hle).
  apply (Hle 1 (sicp 1)). reflexivity.
Defined.

(** ** The overdue scan, again *)

Lemma elem_of_due_books now db k l :
  (k, l) ∈ due_books now db ↔
  loans db !! k = Some l ∧ returned l = false ∧ due_date l < now.
Proof.
  unfold due_books. rewrite elem_of_map_to_list, map_lookup_filter_Some.
  unfold overdue. cbn. tauto.
Qed.

(** X11. The scan grows with the reference time: a loan selected at one
    time is selected at every later time, so the count of the later scan is
    at least that of the earlier. *)
Theorem scan_is_monotone now now' db :
  now ≤ now' →
  (∀ row, row ∈ due_books now db → row ∈ due_books now' db) ∧
  (length (due_books now db) ≤ length (due_books now' db))%nat.
Proof.
  intros Hle. split.
  - intros [k l]. rewrite !elem_of_due_books. intros (? & ? & ?).
    split_and!; [done|done|lia].
  - unfold due_books. rewrite !length_map_to_list.
    apply map_subseteq_size, map_subseteq_spec. intros k l.
    rewrite !map_lookup_filter_Some. unfold overdue. cbn.
    intros (? & ? & ?). split_and!; [done|done|lia].
Qed.

Lemma scan_is_monotone_witness :
  (length (due_books 1691296000000000 db_held)
   ≤ length (due_books 1691296000000001 db_held))%nat.
Proof.
  apply (proj2 (scan_is_monotone 1691296000000000 1691296000000001 db_held
                  ltac:(lia))).
Defined.

(** X12. Right after a borrow that succeeded, the scan selects the new loan
    exactly when the reference time is later than the clock reading of the
    instantiation plus 15 days, and selects of the older loans exactly those
    it selected before the borrow. *)
Theorem scan_after_borrow now t_init t_save u b db :
  status (BorrowBookView_post t_init t_save u b db).1 = HTTP_201_CREATED →
  (∀ k l, created db (BorrowBookView_post t_init t_save u b db).2 k l →
     ((k, l) ∈ due_books now (BorrowBookView_post t_init t_save u b db).2 ↔
      t_init + timedelta_days 15 < now)) ∧
  (∀ k l, is_Some (loans db !! k) →
     ((k, l) ∈ due_books now (BorrowBookView_post t_init t_save u b db).2 ↔
      (k, l) ∈ due_books now db)).
Proof.
  intros Hok. split.
  - intros k l Hnew. pose proof Hnew as [_ Hk].
    apply borrow_created_row in Hnew as [-> ->]; [|done].
    rewrite elem_of_due_books. cbn. unfold get_due_date. tauto.
  - intros k l [l0 Hk0].
    destruct (borrow_created _ _ _ _ _ Hok) as (bk & _ & _ & ->).
    rewrite !elem_of_due_books. cbn.
    rewrite lookup_insert_ne; [done|].
    pose proof (fresh_pk_unused (loans db)). congruence.
Qed.

Lemma scan_after_borrow_witness :
  (0, mkBorrowedBook 7 1 1700000000000250 1701296000000000 false)
    ∈ due_books 1701296000000001
        (BorrowBookView_post 1700000000000000 1700000000000250 alice 1 db0).2.
Proof.
  apply (proj1 (scan_after_borrow 1701296000000001 1700000000000000
                  1700000000000250 alice 1 db0 eq_refl)).
  - by split.
  - unfold timedelta_days. lia.
Defined.

(** X13. Right after a return that succeeded, the scan selects exactly the
    loans it selected before the return other than the loan of this user
    and book: a returned loan is never reported overdue. *)
Theorem scan_after_return now u b db :
  status (ReturnBookView_post u b db).1 = HTTP_200_OK →
  ∀ k l, (k, l) ∈ due_books now (ReturnBookView_post u b db).2 ↔
         (k, l) ∈ due_books now db ∧ ¬ active_for b (user_id u) (k, l).
Proof.
  intros Hok k l.
  destruct (return_ok _ _ _ Hok) as (k0 & l0 & bk & Hsel & Hk0 & Hact0 & _ & ->).
  rewrite !elem_of_due_books. cbn.
  destruct (decide (k0 = k)) as [->|Hne].
  - rewrite lookup_insert_eq. split.
    + intros (Heq & Hret & _). by simplify_eq.
    + intros ((Hk & _) & Hnot). by simplify_eq.
  - rewrite lookup_insert_ne by done. split; [|tauto].
    intros (Hk & Hret & Hdue). split_and!; try done.
    intros Hact. apply Hne.
    assert (Hin : (k, l) ∈ map_to_list (filter (active_for b (user_id u)) (loans db))).
    { apply elem_of_map_to_list. by apply map_lookup_filter_Some. }
    rewrite Hsel in Hin. apply list_elem_of_singleton in Hin. congruence.
Qed.

Lemma scan_after_return_witness :
  (0, mkBorrowedBook 7 1 1690000000000000 1691296000000000 false)
    ∈ due_books 1700000000000000 db_held ∧
  ¬ (0, mkBorrowedBook 7 1 1690000000000000 1691296000000000 false)
      ∈ due_books 1700000000000000 (ReturnBookView_post alice 1 db_held).2.
Proof.
  split.
  - apply elem_of_due_books. split_and!; [reflexivity|reflexivity|cbn; lia].
  - intros Hin.
    apply (scan_after_return 1700000000000000 alice 1 db_held eq_refl) in Hin
      as [_ Hnot].
    apply Hnot. by split_and!.
Defined.

Lemma print_overdue_lines rows db :
  (∀ row, row ∈ rows → is_Some (books db !! book row.2)) →
  ∃ out,
    print_overdue rows db = (Ok out, db) ∧
    Forall2 (λ row line, ∃ bk, books db !! book row.2 = Some bk ∧
                               line = overdue_line bk) rows out.
Proof.
  induction rows as [|row rows IH]; intros Hrows.
  - exists []. by split.
  - destruct (Hrows row) as [bk Hbk]; [left|].
    destruct IH as (out & Hout & Hall).
    { intros row' Hin. apply Hrows. by right. }
    exists (overdue_line bk :: out).
    cbn [print_overdue]. unfold mbind, ORM_bind, Book_objects_get.
    rewrite Hbk, Hout. split; [done|]. constructor; eauto.
Qed.

(** X14. With every selected loan pointing at a book of the catalog, the
    task prints one line per selected loan, in the order of the selection,
    each naming the title of the loan's book, and returns the count
    message. *)
Theorem scan_prints_titles now db :
  (∀ k l, loans db !! k = Some l → returned l = false → due_date l < now →
          is_Some (books db !! book l)) →
  ∃ out,
    check_due_books now db
      = (Ok (out, pretty (length (due_books now db)) +:+ " overdue books found."), db) ∧
    Forall2 (λ row line, ∃ bk, books db !! book row.2 = Some bk ∧
                               line = overdue_line bk)
            (due_books now db) out.
Proof.
  intros Hfk.
  destruct (print_overdue_lines (due_books now db) db) as (out & Hout & Hall).
  { intros [k l] Hin. apply elem_of_due_books in Hin as (? & ? & ?). eauto. }
  exists out. split; [|done].
  unfold check_due_books, mbind, ORM_bind. by rewrite Hout.
Qed.

Lemma scan_prints_titles_witness :
  ∃ out,
    check_due_books 1700000000000000 db_held
      = (Ok (out, "1 overdue books found."), db_held) ∧
    Forall2 (λ row line, ∃ bk, books db_held !! book row.2 = Some bk ∧
                               line = overdue_line bk)
            (due_books 1700000000000000 db_held) out.
Proof.
  apply (scan_prints_titles 1700000000000000 db_held).
  intros k l Hk _ _. cbn in Hk. apply lookup_singleton_Some in Hk as [<- <-].
  by exists (sicp 2).
Defined.

(** ** The catalog views, again *)

Lemma BookDetailView_retrieve_eq pk db :
  BookDetailView_retrieve pk db =
  match books db !! pk with
  | Some bk => (mkResponse (BookJson (Some pk) bk) HTTP_200_OK, db)
  | None => (mkResponse (Json "error" "Failed to retrieve book details!")
                        HTTP_500_INTERNAL_SERVER_ERROR, db)
  end.
Proof.
  unfold BookDetailView_retrieve, try_except, mbind, ORM_bind, get_object.
  destruct (books db !! pk) as [bk|] eqn:Hpk; cbn; by rewrite ?Hpk.
Qed.

Lemma handlers_missing_pk u request_data pk db :
  books db !! pk = None →
  BookUpdateDeleteView_update u pk request_data db = (not_found, db) ∧
  BookUpdateDeleteView_destroy u pk db = (not_found, db).
Proof.
  intros Hpk.
  by rewrite BookUpdateDeleteView_update_eq, BookUpdateDeleteView_destroy_eq, Hpk.
Qed.

(** What each request leaves in the database. *)
Lemma handle_member_request db req : from_member req → handle db req = db.
Proof.
  destruct req as [op|u request_data|u pk request_data|u pk|pk]; cbn; intros Hreq.
  - done.
  - rewrite BookCreateView_create_eq, bool_decide_eq_true_2 by done.
    by destruct (field_errors None request_data db).
  - rewrite BookUpdateDeleteView_update_eq, bool_decide_eq_true_2 by done.
    destruct (books db !! pk); [|done].
    by destruct (field_errors (Some pk) request_data db).
  - rewrite BookUpdateDeleteView_destroy_eq, bool_decide_eq_true_2 by done.
    by destruct (books db !! pk).
  - rewrite BookDetailView_retrieve_eq. by destruct (books db !! pk).
Qed.

(** X15. No sequence of create, update and delete requests sent by users
    who are neither admin nor librarian, mixed with reads of book details,
    changes the database: no book and no loan is added, changed or removed,
    whether or not the books named exist. *)
Theorem member_requests_never_write reqs db :
  Forall from_member reqs → serve reqs db = db.
Proof.
  intros Hall. induction Hall as [|req reqs Hreq _ IH] in db |- *; [done|].
  cbn. rewrite handle_member_request by done. apply IH.
Qed.

Lemma member_requests_never_write_witness :
  serve [CreateBook alice (sicp 5); UpdateBook alice 1 (sicp 9);
         DestroyBook alice 1; DestroyBook alice 4; RetrieveBook 1] db_held
  = db_held.
Proof.
  apply (member_requests_never_write _ db_held).
  repeat constructor; apply (bool_decide_unpack _); by vm_compute.
Defined.

(** X16. An update or a delete that names a book that is not in the catalog
    is answered 404 and writes nothing, whatever the role of the user; a
    read of its details is answered 500, not 404, and writes nothing. *)
Theorem missing_book_requests u request_data pk db :
  books db !! pk = None →
  (status (BookUpdateDeleteView_update u pk request_data db).1 = HTTP_404_NOT_FOUND ∧
   (BookUpdateDeleteView_update u pk request_data db).2 = db) ∧
  (status (BookUpdateDeleteView_destroy u pk db).1 = HTTP_404_NOT_FOUND ∧
   (BookUpdateDeleteView_destroy u pk db).2 = db) ∧
  BookDetailView_retrieve pk db
    = (mkResponse (Json "error" "Failed to retrieve book details!")
                  HTTP_500_INTERNAL_SERVER_ERROR, db).
Proof.
  intros Hpk. destruct (handlers_missing_pk u request_data pk db Hpk) as [-> ->].
  by rewrite BookDetailView_retrieve_eq, Hpk.
Qed.

Lemma missing_book_requests_witness :
  status (BookUpdateDeleteView_destroy bob 4 db_held).1 = HTTP_404_NOT_FOUND ∧
  BookDetailView_retrieve 4 db_held
    = (mkResponse (Json "error" "Failed to retrieve book details!")
                  HTTP_500_INTERNAL_SERVER_ERROR, db_held).
Proof.
  assert (Hpk : books db_held !! 4 = None) by reflexivity.
  destruct (missing_book_requests bob (sicp 9) 4 db_held Hpk) as (_ & [Hd _] & Hr).
  by split.
Defined.





(** X19. A delete by an admin or a librarian of a book that exists removes
    the book and, with it, exactly the loans on that book, returned or not;
    the other books and the loans on them are as they were.  After it a
    borrow of the book is answered 404, and so is a return by a user who held
    it. *)
Theorem staff_destroy_cascades u pk db :
  role u ∈ ["admin"; "librarian"] → is_Some (books db !! pk) →
  status (BookUpdateDeleteView_destroy u pk db).1 = HTTP_204_NO_CONTENT ∧
  books (BookUpdateDeleteView_destroy u pk db).2 !! pk = None ∧
  (∀ pk', pk' ≠ pk →
     books (BookUpdateDeleteView_destroy u pk db).2 !! pk' = books db !! pk') ∧
  (∀ k l, loans (BookUpdateDeleteView_destroy u pk db).2 !! k = Some l ↔
          loans db !! k = Some l ∧ book l ≠ pk) ∧
  (∀ t_init t_save u',
     status (BorrowBookView_post t_init t_save u' pk
               (BookUpdateDeleteView_destroy u pk db).2).1 = HTTP_404_NOT_FOUND) ∧
  (∀ u',
     status (ReturnBookView_post u' pk
               (BookUpdateDeleteView_destroy u pk db).2).1 = HTTP_404_NOT_FOUND).
Proof.
  intros Hrole [bk Hpk].
  rewrite BookUpdateDeleteView_destroy_eq, Hpk, bool_decide_eq_false_2 by tauto.
  cbn. split_and!.
  - done.
  - apply lookup_delete_eq.
  - intros pk' Hne. by rewrite lookup_delete_ne.
  - intros k l. by rewrite map_lookup_filter_Some.
  - intros t_init t_save u'. rewrite BorrowBookView_post_eq. cbn.
    by rewrite lookup_delete_eq.
  - intros u'. rewrite ReturnBookView_post_eq. cbn.
    assert (Hnone : filter (active_for pk (user_id u'))
                      (filter (λ row, book row.2 ≠ pk) (loans db)) = ∅).
    { apply map_empty. intros k. apply map_lookup_filter_None. right.
      intros l Hl (Hb & _). apply map_lookup_filter_Some in Hl as [_ Hne]. done. }
    by rewrite Hnone, map_to_list_empty.
Qed.

Lemma staff_destroy_cascades_witness :
  loans (BookUpdateDeleteView_destroy bob 1 db_held).2 !! 0 = None ∧
  status (ReturnBookView_post alice 1
            (BookUpdateDeleteView_destroy bob 1 db_held).2).1 = HTTP_404_NOT_FOUND.
Proof.
  assert (Hrole : role bob ∈ ["admin"; "librarian"])
    by (apply (bool_decide_unpack _); by vm_compute).
  assert (Hpk : is_Some (books db_held !! 1)) by (by exists (sicp 2)).
  destruct (staff_destroy_cascades bob 1 db_held Hrole Hpk)
    as (_ & _ & _ & Hloans & _ & Hret).
  split; [|apply Hret].
  destruct (loans (BookUpdateDeleteView_destroy bob 1 db_held).2 !! 0)
    as [l|] eqn:Hl; [|done].
  apply Hloans in Hl as [Hl Hne]. cbn in Hl.
  apply lookup_singleton_Some in Hl as [_ <-]. done.
Defined.

(** ** Referential integrity *)

Lemma fk_ok_put_book bs ls b bk :
  fk_ok (mkDB bs ls) → fk_ok (mkDB (<[b := bk]> bs) ls).
Proof.
  intros Hfk k l Hk. cbn in *. apply lookup_insert_is_Some'. right. by eapply Hfk.
Qed.

Lemma step_fk_ok db op : fk_ok db → fk_ok (step db op).
Proof.
  intros Hfk. destruct db as [bs ls].
  destruct op as [t_init t_save u b|u b|now]; cbn [step].
  - rewrite BorrowBookView_post_eq. cbn [books loans].
    destruct (bs !! b) as [bk|] eqn:Hbk; [|done].
    case_bool_decide; [done|]. cbn [snd].
    apply fk_ok_put_book. intros k l Hk. cbn in *.
    apply lookup_insert_Some in Hk as [[_ <-]|[_ Hk]]; [cbn; eauto|by eapply Hfk].
  - rewrite ReturnBookView_post_eq. cbn [books loans].
    destruct (map_to_list _) as [|[k0 l0] [|row' rows]] eqn:Hsel; [done| |done].
    destruct (selected_row _ _ _ _ Hsel) as [Hk0 _]. cbn in Hk0. cbn [fst snd].
    assert (Hloans : fk_ok (mkDB bs (<[k0 := set_returned true l0]> ls))).
    { intros k l Hk. cbn in *.
      apply lookup_insert_Some in Hk as [[_ <-]|[_ Hk]];
        [by apply (Hfk k0 l0)|by apply (Hfk k l)]. }
    destruct (bs !! book l0); [case_bool_decide|]; cbn [snd];
      [by apply fk_ok_put_book|done|done].
  - by rewrite check_due_books_db.
Qed.

Lemma handle_fk_ok db req : fk_ok db → fk_ok (handle db req).
Proof.
  intros Hfk.
  destruct req as [op|u request_data|u pk request_data|u pk|pk]; cbn [handle].
  - by apply step_fk_ok.
  - rewrite BookCreateView_create_eq.
    destruct (field_errors None request_data db); [|done].
    case_bool_decide; [done|]. destruct db. by apply fk_ok_put_book.
  - rewrite BookUpdateDeleteView_update_eq.
    destruct (books db !! pk); [|done].
    destruct (field_errors (Some pk) request_data db); [|done].
    case_bool_decide; [done|]. destruct db. by apply fk_ok_put_book.
  - rewrite BookUpdateDeleteView_destroy_eq.
    destruct (books db !! pk); [|done].
    case_bool_decide; [done|].
    intros k l Hk. cbn in *.
    apply map_lookup_filter_Some in Hk as [Hk Hne]. cbn in Hne.
    rewrite lookup_delete_ne by done. by apply (Hfk k l).
  - rewrite BookDetailView_retrieve_eq. by destruct (books db !! pk).
Qed.

Lemma field_errors_nil_copies exclude request_data db :
  field_errors exclude request_data db = [] →
  positive_integer_ok (available_copies request_data).
Proof.
  unfold field_errors. intros Hnil.
  repeat (apply app_eq_nil in Hnil as [_ Hnil]).
  by destruct (decide (positive_integer_ok (available_copies request_data))).
Qed.

Lemma within_range_put_book bs ls b bk :
  positive_integer_ok (available_copies bk) →
  within_range (mkDB bs ls) → within_range (mkDB (<[b := bk]> bs) ls).
Proof.
  intros Hbk Hin b' bk' Hb'. cbn in *.
  apply lookup_insert_Some in Hb' as [[_ <-]|[_ Hb']]; [done|by eapply Hin].
Qed.

Lemma handle_within_range db req : within_range db → within_range (handle db req).
Proof.
  intros Hin.
  destruct req as [[t_init t_save u b|u b|now]|u request_data|u pk request_data|u pk|pk];
    cbn [handle step].
  - rewrite BorrowBookView_post_eq.
    destruct (books db !! b) as [bk|] eqn:Hbk; [|done].
    case_bool_decide; [done|]. cbn [snd]. destruct db as [bs ls].
    apply within_range_put_book; [|done].
    specialize (Hin _ _ Hbk). unfold positive_integer_ok in *. cbn. lia.
  - rewrite ReturnBookView_post_eq.
    destruct (map_to_list _) as [|row [|row' rows]]; [done| |done].
    cbn [fst snd]. destruct (books db !! book row.2) as [bk|] eqn:Hbk; [|done].
    case_bool_decide; [|done]. cbn [snd]. destruct db as [bs ls].
    apply (within_range_put_book bs); [|done].
    specialize (Hin _ _ Hbk). unfold positive_integer_ok in *. cbn. lia.
  - by rewrite check_due_books_db.
  - rewrite BookCreateView_create_eq.
    destruct (field_errors None request_data db) eqn:Hvalid; [|done].
    case_bool_decide; [done|]. destruct db.
    apply within_range_put_book; [|done]. by eapply field_errors_nil_copies.
  - rewrite BookUpdateDeleteView_update_eq.
    destruct (books db !! pk); [|done].
    destruct (field_errors (Some pk) request_data db) eqn:Hvalid; [|done].
    case_bool_decide; [done|]. destruct db.
    apply within_range_put_book; [|done]. by eapply field_errors_nil_copies.
  - rewrite BookUpdateDeleteView_destroy_eq.
    destruct (books db !! pk); [|done].
    case_bool_decide; [done|].
    intros b0 bk0 Hb. cbn in Hb. apply lookup_delete_Some in Hb as [_ Hb].
    by eapply Hin.
  - rewrite BookDetailView_retrieve_eq. by destruct (books db !! pk).
Qed.

(** X20. From a database in which every loan points at a book of the
    catalog and every count is one that the column holds, every sequence of
    requests to the loan and catalog views, deletes of books on loan
    included, reaches a database of which the same is true.  There the
    overdue task returns its message rather than raising, and a return
    never fails for want of the book of the loan: a return that is not
    answered 200 and yet has written is one on a book whose count is at the
    top of the range. *)
Theorem referential_integrity_is_kept reqs db :
  fk_ok db → within_range db →
  fk_ok (serve reqs db) ∧
  within_range (serve reqs db) ∧
  (∀ now, ∃ out msg,
     check_due_books now (serve reqs db) = (Ok (out, msg), serve reqs db)) ∧
  (∀ u b,
     status (ReturnBookView_post u b (serve reqs db)).1 ≠ HTTP_200_OK →
     (ReturnBookView_post u b (serve reqs db)).2 ≠ serve reqs db →
     ∃ bk, books (serve reqs db) !! b = Some bk ∧
           available_copies bk = PositiveIntegerField_max).
Proof.
  intros Hfk Hin.
  assert (Hkept : fk_ok (serve reqs db) ∧ within_range (serve reqs db)).
  { induction reqs as [|req reqs [IHfk IHin]] using rev_ind; [done|].
    unfold serve. rewrite foldl_snoc.
    split; [by apply handle_fk_ok|by apply handle_within_range]. }
  destruct Hkept as [Hfk' Hin']. split_and!; [done|done| |].
  - intros now.
    destruct (print_overdue_lines (due_books now (serve reqs db)) (serve reqs db))
      as (out & Hout & _).
    { intros [k l] Hin0. apply elem_of_due_books in Hin0 as (Hk & _).
      by eapply Hfk'. }
    exists out, (pretty (length (due_books now (serve reqs db)))
                 +:+ " overdue books found.").
    unfold check_due_books, mbind, ORM_bind. by rewrite Hout.
  - intros u b. rewrite ReturnBookView_post_eq.
    destruct (map_to_list _) as [|[k l] [|row' rows]] eqn:Hsel; [done| |done].
    destruct (selected_row _ _ _ _ Hsel) as [Hk (Hb & _)]. cbn in Hk, Hb.
    destruct (Hfk' _ _ Hk) as [bk Hbk]. cbn. rewrite Hbk.
    case_bool_decide as Htop; [done|]. intros _ _.
    exists bk. rewrite <-Hb. split; [done|].
    specialize (Hin' _ _ Hbk). unfold positive_integer_ok in Hin'. lia.
Qed.

Lemma referential_integrity_is_kept_witness :
  fk_ok (serve [Loan (Borrow 1700000000000000 1700000000000250 bob 1);
                CreateBook bob (htdp 5);
                Loan (Borrow 1700000001000000 1700000001000250 alice 2);
                DestroyBook bob 2;
                Loan (Return alice 1);
                Loan (ScanOverdue 1701300000000000)] db_held) ∧
  size (loans (serve [Loan (Borrow 1700000000000000 1700000000000250 bob 1);
                      CreateBook bob (htdp 5);
                      Loan (Borrow 1700000001000000 1700000001000250 alice 2);
                      DestroyBook bob 2;
                      Loan (Return alice 1);
                      Loan (ScanOverdue 1701300000000000)] db_held)) = 2%nat.
Proof.
  assert (Hfk : fk_ok db_held).
  { intros k l Hk. cbn in Hk. apply lookup_singleton_Some in Hk as [<- <-].
    by exists (sicp 2). }
  assert (Hin : within_range db_held).
  { intros b bk Hb. cbn in Hb. apply lookup_singleton_Some in Hb as [_ <-].
    by vm_compute. }
  split; [|by vm_compute].
  apply (referential_integrity_is_kept _ db_held Hfk Hin).
Defined.
